(** * Tool rental back end: a shallow embedding of [backend/server.js]

    The development follows the layout of the source file: JavaScript
    values and the few library functions the handlers rely on, the
    records of the persisted document, the file system and the other
    sources of nondeterminism gathered in a [World], the database
    functions ([readDB], [writeDB]), the two scorers ([detectAIImage],
    [compareImages]) and the route handlers.  The theorems come last. *)

From Stdlib Require Import ZArith QArith Qround Qminmax Lqa String Ascii List Lia.
From stdpp Require Import base option list gmap strings pretty.

Local Open Scope string_scope.
Local Open Scope Z_scope.

(** ** JavaScript numbers that hold counts

    Counts and identifiers are JavaScript numbers produced by [parseInt]
    and by integer arithmetic on its results: an integer or [NaN].
    Integers are exact here; the rounding of magnitudes beyond 2^53 is
    not modelled. *)

Inductive num := NaN | Int (z : Z).

#[global] Instance num_eq_dec : EqDecision num.
Proof. solve_decision. Defined.

(** [a + b], [a - b]: [NaN] is absorbing. *)
Definition num_add (a b : num) : num :=
  match a, b with Int x, Int y => Int (x + y) | _, _ => NaN end.

Definition num_sub (a b : num) : num :=
  match a, b with Int x, Int y => Int (x - y) | _, _ => NaN end.

(** [a < b], [a <= b], [a === b]: every comparison with [NaN] is false. *)
Definition num_ltb (a b : num) : bool :=
  match a, b with Int x, Int y => x <? y | _, _ => false end.

Definition num_leb (a b : num) : bool :=
  match a, b with Int x, Int y => x <=? y | _, _ => false end.

Definition num_eqb (a b : num) : bool :=
  match a, b with Int x, Int y => x =? y | _, _ => false end.

(** [Math.max(a, b)], [Math.min(a, b)]: [NaN] when an argument is. *)
Definition num_max (a b : num) : num :=
  match a, b with Int x, Int y => Int (Z.max x y) | _, _ => NaN end.

Definition num_min (a b : num) : num :=
  match a, b with Int x, Int y => Int (Z.min x y) | _, _ => NaN end.

(** [Math.max(...l)] on a list that is not empty ([None] stands for the
    [-Infinity] of the empty call, which no handler reaches). *)
Definition num_max_list (l : list num) : option num :=
  match l with
  | [] => None
  | x :: l' => Some (fold_left num_max l' x)
  end.

(** Template-literal rendering of a count. *)
Definition num_to_string (a : num) : string :=
  match a with NaN => "NaN" | Int z => pretty z end.

(** ** Strings

    A string is a sequence of code units below 256.  [toLowerCase] is
    modelled on the letters A to Z; the other code units are left as they
    are (none of them lowercases to an ASCII letter or digit, which is all
    the handlers test for). *)

Definition is_upper (c : ascii) : bool :=
  let n := nat_of_ascii c in (65 <=? n)%nat && (n <=? 90)%nat.

Definition is_lower (c : ascii) : bool :=
  let n := nat_of_ascii c in (97 <=? n)%nat && (n <=? 122)%nat.

Definition is_digit (c : ascii) : bool :=
  let n := nat_of_ascii c in (48 <=? n)%nat && (n <=? 57)%nat.

Definition lower_char (c : ascii) : ascii :=
  if is_upper c then ascii_of_nat (nat_of_ascii c + 32) else c.

Fixpoint string_map (f : ascii -> ascii) (s : string) : string :=
  match s with
  | EmptyString => EmptyString
  | String c s' => String (f c) (string_map f s')
  end.

Definition toLowerCase (s : string) : string := string_map lower_char s.

(** [s.includes(k)] *)
Fixpoint includes (s k : string) : bool :=
  String.prefix k s ||
  match s with
  | EmptyString => false
  | String _ s' => includes s' k
  end.

(** [path.extname(p)] (POSIX flavour): the part of the last path segment
    from its last dot on; empty when that segment has no dot, starts with
    its only dot, or is "..".  Computed on the reversed characters. *)
Fixpoint drop_slashes (l : list ascii) : list ascii :=
  match l with
  | c :: l' => if Ascii.eqb c "/" then drop_slashes l' else l
  | [] => []
  end.

Fixpoint take_segment (l : list ascii) : list ascii :=
  match l with
  | c :: l' => if Ascii.eqb c "/" then [] else c :: take_segment l'
  | [] => []
  end.

(** Splits a reversed segment at its first dot: the reversed extension
    (dot included) and what precedes the dot. *)
Fixpoint split_dot (l : list ascii) : option (list ascii * list ascii) :=
  match l with
  | [] => None
  | c :: l' =>
      if Ascii.eqb c "." then Some ([c], l')
      else match split_dot l' with
           | Some (e, r) => Some (c :: e, r)
           | None => None
           end
  end.

Definition extname (p : string) : string :=
  let seg := take_segment (drop_slashes (rev (list_ascii_of_string p))) in
  match split_dot seg with
  | None => ""
  | Some (e, r) =>
      match r with
      | [] => ""
      | _ => if decide (seg = ["."%char; "."%char]) then ""
             else string_of_list_ascii (rev e)
      end
  end.

(** [path.join(dir, name)], without the normalisation of dot segments. *)
Definition path_join (dir name : string) : string := dir ++ "/" ++ name.

(** ** Request fields and [parseInt]

    A field of a request body is absent or a string (a JSON number is
    carried by its decimal text, which is what [parseInt] and
    [parseFloat] convert their argument to first). *)

Inductive jsval := JUndefined | JStr (s : string).

#[global] Instance jsval_eq_dec : EqDecision jsval.
Proof. solve_decision. Defined.

(** Truthiness, for [x || y] and [if (x)]. *)
Definition truthy (v : jsval) : bool :=
  match v with
  | JUndefined => false
  | JStr s => negb (String.eqb s "")
  end.

Definition js_or (a b : jsval) : jsval := if truthy a then a else b.

(** [t.id === v] for a string [t.id]. *)
Definition str_is (s : string) (v : jsval) : bool :=
  match v with JStr s' => String.eqb s s' | JUndefined => false end.

Definition is_space (c : ascii) : bool :=
  let n := nat_of_ascii c in
  ((9 <=? n)%nat && (n <=? 13)%nat) || (n =? 32)%nat || (n =? 160)%nat.

Fixpoint trim_start (s : string) : string :=
  match s with
  | String c s' => if is_space c then trim_start s' else s
  | EmptyString => EmptyString
  end.

Definition digit_value (radix : Z) (c : ascii) : option Z :=
  let n := Z.of_nat (nat_of_ascii c) in
  let v := if is_digit c then n - 48
           else if is_lower c then n - 87
           else if is_upper c then n - 55
           else radix in
  if v <? radix then Some v else None.

(** The longest prefix of digits, as a number ([None]: no digit). *)
Fixpoint parse_digits (radix : Z) (acc : option Z) (s : string) : option Z :=
  match s with
  | EmptyString => acc
  | String c s' =>
      match digit_value radix c with
      | Some v => parse_digits radix (Some (radix * default 0 acc + v)) s'
      | None => acc
      end
  end.

Definition parse_unsigned (s : string) : option Z :=
  match s with
  | String "0" (String "x" s') | String "0" (String "X" s') =>
      parse_digits 16 None s'
  | _ => parse_digits 10 None s
  end.

Definition split_sign (s : string) : Z * string :=
  match s with
  | String "-" s' => (-1, s')
  | String "+" s' => (1, s')
  | _ => (1, s)
  end.

Definition parseInt_string (s : string) : num :=
  let '(sign, s) := split_sign (trim_start s) in
  match parse_unsigned s with
  | Some v => Int (sign * v)
  | None => NaN
  end.

Definition parseInt (v : jsval) : num :=
  match v with
  | JUndefined => NaN
  | JStr s => parseInt_string s
  end.

(** ** The persisted document

    One module per record, so that the fields keep the names they have
    in the source.  [float] is the type of the numbers [parseFloat]
    returns; prices are stored and never computed with. *)

Record Specs := {
  power : string; rpm : string; weight : string; condition : string }.

Module Tool.
Record t (float : Type) := mk {
  id : string;
  name : jsval;
  beforeImage : jsval;
  price : float;
  quantity : num;
  rented : num;
  available : num;
  description : jsval;
  specs : Specs }.
Arguments mk {float}.
Arguments id {float}.
Arguments name {float}.
Arguments beforeImage {float}.
Arguments price {float}.
Arguments quantity {float}.
Arguments rented {float}.
Arguments available {float}.
Arguments description {float}.
Arguments specs {float}.
End Tool.

Inductive rental_status := RENTED | RETURNED.

Module Rental.
Record t (float : Type) := mk {
  rentalId : string;
  toolId : jsval;
  userId : num;
  userName : jsval;
  userEmail : jsval;
  rentDays : num;
  totalPrice : float;
  rentalDate : string;
  status : rental_status;
  returnDate : option string;
  afterImage : option string }.
Arguments mk {float}.
Arguments rentalId {float}.
Arguments toolId {float}.
Arguments userId {float}.
Arguments userName {float}.
Arguments userEmail {float}.
Arguments rentDays {float}.
Arguments totalPrice {float}.
Arguments rentalDate {float}.
Arguments status {float}.
Arguments returnDate {float}.
Arguments afterImage {float}.
End Rental.

Inductive log_action := AUTO_RESOLVED | RESOLVED.

Module Log.
Record t := mk {
  id : num;
  toolId : jsval;
  userId : num;
  userName : jsval;
  rentalId : jsval;
  beforeImage : jsval;
  afterImage : string;
  damageScore : Z;
  aiDetected : bool;
  aiConfidence : Z;
  damageDetected : bool;
  damageConfidence : Z;
  imageSimilarity : Z;
  status : string;
  timestamp : string;
  action : log_action }.
End Log.

Module User.
Record t := mk {
  id : num; email : string; password : string; role : string;
  name : string; joinedDate : string }.
End User.

Module Admin.
Record t := mk {
  email : string; password : string; role : string; name : string }.
End Admin.

Module Document.
Record t (float : Type) := mk {
  admin : option Admin.t;
  users : list User.t;
  tools : list (Tool.t float);
  rentals : list (Rental.t float);
  logs : list Log.t }.
Arguments mk {float}.
Arguments admin {float}.
Arguments users {float}.
Arguments tools {float}.
Arguments rentals {float}.
Arguments logs {float}.
End Document.

(** ** Files, requests, responses *)

(** What a file holds, as far as the program can tell: the complete JSON
    text of a document, the first [k] bytes of such a text (fewer than
    all of them), or other bytes, of which only the number matters. *)
Inductive file (float : Type) :=
  | Json (d : Document.t float)
  | Partial (d : Document.t float) (k : nat)
  | Blob (size : Z).
Arguments Json {float}.
Arguments Partial {float}.
Arguments Blob {float}.

(** How a save can go wrong: [writeFileSync] throws before it creates the
    file or after [k] bytes, or [renameSync] throws. *)
Inductive fault := NoFault | OpenFails | WriteFails (k : nat) | RenameFails.

(** [req.file], as multer binds it. *)
Module Upload.
Record t := mk {
  path : string; originalname : string; size : Z; filename : string }.
End Upload.

Inductive payload (float : Type) :=
  | NoPayload
  | ToolPayload (tool : Tool.t float)
  | RentalPayload (rental : Rental.t float).
Arguments NoPayload {float}.
Arguments ToolPayload {float}.
Arguments RentalPayload {float}.

(** [res.status(code).json({ success, message, ... })] *)
Module Response.
Record t (float : Type) := mk {
  code : Z; success : bool; message : string; body : payload float }.
Arguments mk {float}.
Arguments code {float}.
Arguments success {float}.
Arguments message {float}.
Arguments body {float}.
End Response.

(** The file system, the write counter of the process, and the values
    the environment will hand out: [Math.random()], [new
    Date().toISOString()], [uuidv4()] and the fate of the next saves.
    Each stream is consumed from index 0. *)
Module World.
Record t (float : Type) := mk {
  files : gmap string (file float);
  dbChangeCount : nat;
  random : nat -> Q;
  dates : nat -> string;
  uuids : nat -> string;
  faults : nat -> fault }.
Arguments mk {float}.
Arguments files {float}.
Arguments dbChangeCount {float}.
Arguments random {float}.
Arguments dates {float}.
Arguments uuids {float}.
Arguments faults {float}.
End World.

(** How a piece of handler code ends: with a value, with the response
    sent (every [res.json] of the source is in tail position), or with
    an exception. *)
Inductive outcome (float A : Type) :=
  | Ret (a : A)
  | Sent (r : Response.t float)
  | Thrown (e : string).
Arguments Ret {float A}.
Arguments Sent {float A}.
Arguments Thrown {float A}.

Definition shift {A} (s : nat -> A) : nat -> A := fun n => s (S n).

(** Request bodies, one record per route. *)
Module ToolBody.
Record t := mk {
  id : jsval; name : jsval; price : jsval; quantity : jsval;
  beforeImage : jsval; description : jsval; specs : option Specs }.
End ToolBody.

Module RentBody.
Record t := mk {
  toolId : jsval; userId : jsval; userName : jsval; userEmail : jsval;
  rentDays : jsval; totalPrice : jsval }.
End RentBody.

Module ReturnBody.
Record t := mk { toolId : jsval; rentalId : jsval; userId : jsval }.
End ReturnBody.

Module ActionBody.
Record t := mk { logId : jsval; action : jsval }.
End ActionBody.

(** What the two scorers return. *)
Module AIResult.
Record t := mk {
  is_ai_generated : bool;
  confidence : Z;
  allow_upload : bool;
  damage_detected : bool;
  damage_confidence : Z;
  warnings : list string }.
End AIResult.

Module Comparison.
Record t := mk { similar : bool; score : Z; error : option string }.
End Comparison.

(** A rental as [GET /api/rentals/user/:userId] shows it: the rental
    with the name and the image of its tool. *)
Module RentalView.
Record t (float : Type) := mk {
  rental : Rental.t float; toolName : jsval; toolImage : string }.
Arguments mk {float}.
Arguments rental {float}.
Arguments toolName {float}.
Arguments toolImage {float}.
End RentalView.

(** What [POST /api/login] answers: [{ success: true, role, userId }] or
    401 with a message. *)
Inductive login_reply :=
  | LoggedIn (role userId : string)
  | LoginRefused (message : string).

(** [a === b] on request fields. *)
Definition js_eq (a b : jsval) : bool := bool_decide (a = b).

(** [x > y] on rationals; [Math.round], [Math.floor]. *)
Definition Qgtb (x y : Q) : bool := negb (Qle_bool x y).
Definition Qltb (x y : Q) : bool := negb (Qle_bool y x).
Definition Math_round (x : Q) : Z := Qfloor (x + (1 # 2)).
Definition Math_floor (x : Q) : Z := Qfloor x.

(** Template-literal rendering of a request field. *)
Definition js_to_string (v : jsval) : string :=
  match v with JUndefined => "undefined" | JStr s => s end.

Section Server.

(** The numbers [parseFloat] returns and [parseFloat] itself, the
    length of [JSON.stringify(d, null, 2)], and [__dirname]. *)
Context {float : Type}.
Variable parseFloat : jsval -> float.
Variable stringify_length : Document.t float -> Z.
Variable dirname : string.

Local Abbreviation tool := (Tool.t float).
Local Abbreviation rental := (Rental.t float).
Local Abbreviation document := (Document.t float).
Local Abbreviation world := (World.t float).
Local Abbreviation response := (Response.t float).

Definition DB_PATH : string := path_join dirname "db.json".
Definition UPLOAD_DIR_BEFORE : string :=
  path_join (path_join dirname "uploads") "before".
Definition UPLOAD_DIR_AFTER : string :=
  path_join (path_join dirname "uploads") "after".

(** *** The handler monad: state, early response, exceptions *)

Definition M (A : Type) : Type := world -> outcome float A * world.

#[global] Instance M_ret : MRet M := fun A a w => (Ret a, w).

#[global] Instance M_bind : MBind M := fun A B k m w =>
  match m w with
  | (Ret a, w') => k a w'
  | (Sent r, w') => (Sent r, w')
  | (Thrown e, w') => (Thrown e, w')
  end.

Definition send {A} (r : response) : M A := fun w => (Sent r, w).
Definition throw {A} (e : string) : M A := fun w => (Thrown e, w).

(** [try { body } catch (error) { handler }]: a [return res...] inside
    the body leaves the function, an exception runs the handler in the
    state the body had reached. *)
Definition try_catch {A} (body : M A) (handler : string -> M A) : M A :=
  fun w =>
    match body w with
    | (Thrown e, w') => handler e w'
    | r => r
    end.

Definition set_files (f : gmap string (file float)) (w : world) : world :=
  World.mk f (World.dbChangeCount w) (World.random w) (World.dates w)
    (World.uuids w) (World.faults w).

Definition Math_random : M Q := fun w =>
  (Ret (World.random w 0%nat),
   World.mk (World.files w) (World.dbChangeCount w) (shift (World.random w))
     (World.dates w) (World.uuids w) (World.faults w)).

(** [new Date().toISOString()] *)
Definition new_Date : M string := fun w =>
  (Ret (World.dates w 0%nat),
   World.mk (World.files w) (World.dbChangeCount w) (World.random w)
     (shift (World.dates w)) (World.uuids w) (World.faults w)).

Definition uuidv4 : M string := fun w =>
  (Ret (World.uuids w 0%nat),
   World.mk (World.files w) (World.dbChangeCount w) (World.random w)
     (World.dates w) (shift (World.uuids w)) (World.faults w)).

Definition next_fault : M fault := fun w =>
  (Ret (World.faults w 0%nat),
   World.mk (World.files w) (World.dbChangeCount w) (World.random w)
     (World.dates w) (World.uuids w) (shift (World.faults w))).

Definition count_change : M unit := fun w =>
  (Ret tt,
   World.mk (World.files w) (S (World.dbChangeCount w)) (World.random w)
     (World.dates w) (World.uuids w) (World.faults w)).

(** *** The [fs] calls the server makes *)

Definition file_size (f : file float) : Z :=
  match f with
  | Json d => stringify_length d
  | Partial _ k => Z.of_nat k
  | Blob n => n
  end.

Definition existsSync (p : string) : M bool := fun w =>
  (Ret (bool_decide (is_Some (World.files w !! p))), w).

(** [fs.statSync(p).size] *)
Definition statSync (p : string) : M Z := fun w =>
  match World.files w !! p with
  | Some f => (Ret (file_size f), w)
  | None => (Thrown "ENOENT", w)
  end.

Definition unlinkSync (p : string) : M unit := fun w =>
  match World.files w !! p with
  | Some _ => (Ret tt, set_files (delete p (World.files w)) w)
  | None => (Thrown "ENOENT", w)
  end.

(** [fs.writeFileSync(p, JSON.stringify(d, null, 2), 'utf8')] under the
    fault [f] drawn for this save. *)
Definition writeFileSync (f : fault) (p : string) (d : document) : M unit :=
  fun w =>
    match f with
    | OpenFails => (Thrown "EACCES", w)
    | WriteFails k =>
        (Thrown "ENOSPC", set_files (<[p := Partial d k]> (World.files w)) w)
    | _ => (Ret tt, set_files (<[p := Json d]> (World.files w)) w)
    end.

Definition renameSync (f : fault) (src dst : string) : M unit := fun w =>
  match f with
  | RenameFails => (Thrown "EPERM", w)
  | _ =>
      match World.files w !! src with
      | Some x =>
          (Ret tt, set_files (<[dst := x]> (delete src (World.files w))) w)
      | None => (Thrown "ENOENT", w)
      end
  end.

(** *** Database functions *)

Definition emptyDB : document := Document.mk None [] [] [] [].

Definition readDB : M document := fun w =>
  match World.files w !! DB_PATH with
  | Some (Json d) => (Ret d, w)
  | _ => (Ret emptyDB, w)
  end.

Definition tempPath : string := DB_PATH ++ ".tmp".

Definition writeDB (data : document) : M bool :=
  f ← next_fault;
  try_catch
    (writeFileSync f tempPath data;;
     renameSync f tempPath DB_PATH;;
     count_change;;
     mret true)
    (fun _ => mret false).

(** Whether the next save will go through. *)
Definition save_ok (w : world) : bool :=
  match World.faults w 0%nat with NoFault => true | _ => false end.

(** *** AI detection functions *)

Definition aiKeywords : list string :=
  ["ai"; "generated"; "stable"; "dall"; "midjourney"].

(** The part of [aiScore] that does not come from [Math.random]. *)
Definition signalScore (fileName : string) (fileSize : Z) : Q :=
  let s0 := 0%Q in
  let s1 := if fileSize <? 50000 then (s0 + (3 # 10))%Q else s0 in
  let s2 := if 5000000 <? fileSize then (s1 + (1 # 10))%Q else s1 in
  let lowerFileName := toLowerCase fileName in
  let foundKeywords :=
    List.filter (fun keyword => includes lowerFileName keyword) aiKeywords in
  let s3 := if (0 <? length foundKeywords)%nat then (s2 + (4 # 10))%Q else s2 in
  let ext := toLowerCase (extname fileName) in
  let s4 := if String.eqb ext ".png" then (s3 + (2 # 10))%Q else s3 in
  let s5 := if String.eqb ext ".webp" then (s4 + (15 # 100))%Q else s4 in
  s5.

Definition aiScore (fileName : string) (fileSize : Z) (r1 r2 : Q) : Q :=
  (signalScore fileName fileSize + r1 * (4 # 10) + r2 * (2 # 10))%Q.

(** The return value of [detectAIImage], given the four values
    [Math.random()] hands out during the call. *)
Definition ai_result (fileName : string) (fileSize : Z) (r1 r2 r3 r4 : Q)
  : AIResult.t :=
  let aiScore := aiScore fileName fileSize r1 r2 in
  let damageDetected := Qltb r3 (2 # 10) in
  let damageConfidence :=
    if damageDetected then Math_floor (r4 * 30) + 70
    else Math_floor (r4 * 20) in
  let isAIGenerated := Qgtb aiScore (7 # 10) in
  let confidence := Z.min 98 (Math_round (aiScore * 100)) in
  AIResult.mk isAIGenerated confidence
    (negb isAIGenerated || (confidence <? 80))
    damageDetected damageConfidence [].

Definition detectAIImage (filePath fileName : string) (fileSize : Z)
  : M AIResult.t :=
  r1 ← Math_random;
  r2 ← Math_random;
  r3 ← Math_random;
  r4 ← Math_random;
  mret (ai_result fileName fileSize r1 r2 r3 r4).

(** The return value of [compareImages] once both sizes are known. *)
Definition compare_sizes (size1 size2 : Z) (r : Q) : Comparison.t :=
  let sizeDiff := Z.abs (size1 - size2) in
  let maxSize := Z.max size1 size2 in
  let sizeSimilarity :=
    if 0 <? maxSize then (1 - inject_Z sizeDiff / inject_Z maxSize)%Q
    else (3 # 10)%Q in
  let baseSimilarity := ((3 # 10) + r * (5 # 10))%Q in
  let finalSimilarity :=
    Qmin (95 # 100)
      (sizeSimilarity * (2 # 10) + baseSimilarity * (8 # 10))%Q in
  Comparison.mk (Qgtb finalSimilarity (6 # 10))
    (Math_round (finalSimilarity * 100)) None.

Definition compareImages (file1Path file2Path : string) : M Comparison.t :=
  try_catch
    (size1 ← statSync file1Path;
     size2 ← statSync file2Path;
     r ← Math_random;
     mret (compare_sizes size1 size2 r))
    (fun e => mret (Comparison.mk false 0 (Some e))).

(** The world once [n] more values of [Math.random()] are used up. *)
Definition skip_random (n : nat) (w : world) : world :=
  World.mk (World.files w) (World.dbChangeCount w)
    (fun k => World.random w (n + k)%nat) (World.dates w) (World.uuids w)
    (World.faults w).

(** *** Routes *)

Definition json (code : Z) (success : bool) (message : string) : response :=
  Response.mk code success message NoPayload.

(** [db.tools.find(t => t.id === id)], with the index the reference
    [tool] stands for in the array. *)
Definition find_tool (id : jsval) (db : document) : option (nat * tool) :=
  list_find (fun t => str_is (Tool.id t) id = true) (Document.tools db).

Definition set_tools (ts : list tool) (db : document) : document :=
  Document.mk (Document.admin db) (Document.users db) ts
    (Document.rentals db) (Document.logs db).

Definition set_rentals (rs : list rental) (db : document) : document :=
  Document.mk (Document.admin db) (Document.users db) (Document.tools db)
    rs (Document.logs db).

Definition set_logs (ls : list Log.t) (db : document) : document :=
  Document.mk (Document.admin db) (Document.users db) (Document.tools db)
    (Document.rentals db) ls.

(** Assignments to [tool.quantity], [tool.rented], [tool.available]. *)
Definition set_counts (quantity rented available : num) (t : tool) : tool :=
  Tool.mk (Tool.id t) (Tool.name t) (Tool.beforeImage t) (Tool.price t)
    quantity rented available (Tool.description t) (Tool.specs t).

(** [name.toLowerCase().replace(/[^a-z0-9]/g, '-')] *)
Definition dash_char (c : ascii) : ascii :=
  if is_lower c || is_digit c then c else "-"%char.

Definition newToolId (name : string) : string :=
  string_map dash_char (toLowerCase name).

Definition defaultSpecs : Specs :=
  {| power := "N/A"; rpm := "N/A"; weight := "N/A"; condition := "New" |}.

Definition QuantityBelowRented (rented : num) : response :=
  json 400 false
    ("Cannot reduce quantity below rented (" ++ num_to_string rented ++ ").").

Definition DuplicateTool : response :=
  json 400 false "Tool name already exists.".

(** The update branch: the assignments to the fields of [tool]. *)
Definition updatedTool (body : ToolBody.t) (t : tool) : tool :=
  let newQuantity := parseInt (ToolBody.quantity body) in
  Tool.mk (Tool.id t) (ToolBody.name body)
    (ToolBody.beforeImage body) (parseFloat (ToolBody.price body))
    newQuantity (Tool.rented t)
    (num_sub newQuantity (Tool.rented t))
    (js_or (ToolBody.description body) (Tool.description t))
    (default (Tool.specs t) (ToolBody.specs body)).

(** The create branch: the object literal [newTool]. *)
Definition newTool (body : ToolBody.t) (name : string) : tool :=
  Tool.mk (newToolId name) (JStr name) (ToolBody.beforeImage body)
    (parseFloat (ToolBody.price body))
    (parseInt (ToolBody.quantity body)) (Int 0)
    (parseInt (ToolBody.quantity body))
    (js_or (ToolBody.description body) (JStr "New tool added."))
    (default defaultSpecs (ToolBody.specs body)).

Definition toolUpdated (t : tool) : response :=
  Response.mk 200 true "Tool updated successfully." (ToolPayload t).

Definition toolAdded (t : tool) : response :=
  Response.mk 200 true "New tool added successfully." (ToolPayload t).

(** [db.tools.some(t => t.id === newToolId)] *)
Definition id_taken (newToolId : string) (db : document) : bool :=
  existsb (fun t => String.eqb (Tool.id t) newToolId) (Document.tools db).

(** [app.post('/api/admin/tools', ...)] *)
Definition post_admin_tools (body : ToolBody.t) : M response :=
  db ← readDB;
  match find_tool (ToolBody.id body) db with
  | Some (toolIndex, tool) =>
      let newQuantity := parseInt (ToolBody.quantity body) in
      if num_ltb newQuantity (Tool.rented tool) then
        send (QuantityBelowRented (Tool.rented tool))
      else
        let tool' := updatedTool body tool in
        _ ← writeDB (set_tools (<[toolIndex := tool']> (Document.tools db)) db);
        send (toolUpdated tool')
  | None =>
      match ToolBody.name body with
      | JUndefined => throw "TypeError"
      | JStr name =>
          if id_taken (newToolId name) db then send DuplicateTool
          else
            let newTool := newTool body name in
            _ ← writeDB (set_tools (Document.tools db ++ [newTool]) db);
            send (toolAdded newTool)
      end
  end.

Definition ToolUnavailable : response :=
  json 400 false "Tool is unavailable.".

(** [tool.rented += 1; tool.available -= 1] *)
Definition rent_out (t : tool) : tool :=
  set_counts (Tool.quantity t)
    (num_add (Tool.rented t) (Int 1))
    (num_sub (Tool.available t) (Int 1)) t.

Definition newRental (body : RentBody.t) (rentalId rentalDate : string)
  : rental :=
  Rental.mk rentalId (RentBody.toolId body)
    (parseInt (RentBody.userId body)) (RentBody.userName body)
    (RentBody.userEmail body) (parseInt (RentBody.rentDays body))
    (parseFloat (RentBody.totalPrice body)) rentalDate RENTED None None.

Definition rented_out (r : rental) : response :=
  Response.mk 200 true "Tool rented successfully." (RentalPayload r).

(** The document [post_rent] hands to [writeDB]. *)
Definition with_rental (db : document) (toolIndex : nat) (t : tool)
    (r : rental) : document :=
  set_rentals (Document.rentals db ++ [r])
    (set_tools (<[toolIndex := rent_out t]> (Document.tools db)) db).

(** [app.post('/api/rent', ...)] *)
Definition post_rent (body : RentBody.t) : M response :=
  db ← readDB;
  match find_tool (RentBody.toolId body) db with
  | None => send ToolUnavailable
  | Some (toolIndex, tool) =>
      if num_leb (Tool.available tool) (Int 0) then send ToolUnavailable
      else
        rentalId ← uuidv4;
        rentalDate ← new_Date;
        let newRental := newRental body rentalId rentalDate in
        _ ← writeDB (with_rental db toolIndex tool newRental);
        send (rented_out newRental)
  end.

Definition NoImage : response := json 400 false "No image uploaded.".
Definition ToolNotFound : response := json 400 false "Tool not found.".
Definition RentalNotFound : response := json 404 false "Rental not found.".

Definition SyntheticImageRejected : response :=
  json 400 false
    "The uploaded image appears to be AI-generated. Please upload a real photo.".

Definition ImageMismatch (name : jsval) : response :=
  json 400 false
    ("The uploaded image doesn't appear to show the same tool. Please upload a clear photo of the actual "
       ++ js_to_string name ++ ".").

Definition ReturnError : response :=
  json 500 false "Error processing return.".

Definition returned (confidence : Z) : response :=
  json 200 true
    (if 70 <? confidence
     then "✅ Tool returned successfully. Image requires review."
     else "✅ Tool returned successfully and is available for rent.").

(** Step 2 of the return route: the comparison with the reference
    image, which answers by itself when the images do not match. *)
Definition originalPath (t : tool) : string :=
  path_join UPLOAD_DIR_BEFORE (js_to_string (Tool.beforeImage t)).

Definition image_comparison (tool : tool) (file : Upload.t) : M Comparison.t :=
  let comparisonResult := Comparison.mk false 0 None in
  if truthy (Tool.beforeImage tool) then
    let originalPath := originalPath tool in
    found ← existsSync originalPath;
    if found : bool then
      comparisonResult ← compareImages originalPath (Upload.path file);
      if negb (Comparison.similar comparisonResult)
         || (Comparison.score comparisonResult <? 60)
      then
        _ ← unlinkSync (Upload.path file);
        send (ImageMismatch (Tool.name tool))
      else mret comparisonResult
    else mret comparisonResult
  else mret comparisonResult.

(** [db.logs.length ? Math.max(...db.logs.map(l => l.id)) + 1 : 1] *)
Definition newLogId (logs : list Log.t) : num :=
  match num_max_list (map Log.id logs) with
  | Some m => num_add m (Int 1)
  | None => Int 1
  end.

(** Steps 3 and 4 on the rental and on the tool. *)
Definition mark_returned (returnDate afterImage : string) (r : rental) : rental :=
  Rental.mk (Rental.rentalId r) (Rental.toolId r) (Rental.userId r)
    (Rental.userName r) (Rental.userEmail r) (Rental.rentDays r)
    (Rental.totalPrice r) (Rental.rentalDate r) RETURNED
    (Some returnDate) (Some afterImage).

Definition take_back (t : tool) : tool :=
  set_counts (Tool.quantity t)
    (num_max (Int 0) (num_sub (Tool.rented t) (Int 1)))
    (num_add (Tool.available t) (Int 1)) t.

Definition find_rental (rentalId : jsval) (db : document)
  : option (nat * rental) :=
  list_find (fun r => str_is (Rental.rentalId r) rentalId = true)
    (Document.rentals db).

(** Step 5: the log entry. *)
Definition logEntry (db : document) (body : ReturnBody.t) (file : Upload.t)
    (t : tool) (r : rental) (aiResult : AIResult.t)
    (comparisonResult : Comparison.t) (damageScore : Z) (timestamp : string)
  : Log.t :=
  Log.mk (newLogId (Document.logs db))
    (ReturnBody.toolId body)
    (parseInt (ReturnBody.userId body))
    (Rental.userName r) (ReturnBody.rentalId body)
    (Tool.beforeImage t) (Upload.filename file)
    damageScore (AIResult.is_ai_generated aiResult)
    (AIResult.confidence aiResult)
    (AIResult.damage_detected aiResult)
    (AIResult.damage_confidence aiResult)
    (Comparison.score comparisonResult)
    (if 70 <? AIResult.confidence aiResult
     then "AI Detected - Review Required" else "Available")
    timestamp AUTO_RESOLVED.

(** The document [post_return_check] hands to [writeDB]. *)
Definition with_return (db : document) (toolIndex rentalIndex : nat)
    (t : tool) (r : rental) (returnDate afterImage : string) (l : Log.t)
  : document :=
  set_logs (Document.logs db ++ [l])
    (set_tools (<[toolIndex := take_back t]> (Document.tools db))
       (set_rentals
          (<[rentalIndex := mark_returned returnDate afterImage r]>
             (Document.rentals db))
          db)).

(** [aiResult.damage_detected ? Math.max(70, aiResult.damage_confidence)
    : Math.floor(Math.random() * 30)] *)
Definition damageScore (aiResult : AIResult.t) : M Z :=
  if AIResult.damage_detected aiResult then
    mret (Z.max 70 (AIResult.damage_confidence aiResult))
  else
    r ← Math_random;
    mret (Math_floor (r * 30)).

(** [app.post('/api/return/check', upload.single('afterImage'), ...)] *)
Definition post_return_check (body : ReturnBody.t) (file : option Upload.t)
  : M response :=
  match file with
  | None => send NoImage
  | Some file =>
      db ← readDB;
      match find_tool (ReturnBody.toolId body) db with
      | None => send ToolNotFound
      | Some (toolIndex, tool) =>
          try_catch
            (aiResult ← detectAIImage (Upload.path file)
                          (Upload.originalname file) (Upload.size file);
             if negb (AIResult.allow_upload aiResult) then
               _ ← unlinkSync (Upload.path file);
               send SyntheticImageRejected
             else
               comparisonResult ← image_comparison tool file;
               match find_rental (ReturnBody.rentalId body) db with
               | None =>
                   _ ← unlinkSync (Upload.path file);
                   send RentalNotFound
               | Some (rentalIndex, rental) =>
                   returnDate ← new_Date;
                   damageScore ← damageScore aiResult;
                   timestamp ← new_Date;
                   let logEntry :=
                     logEntry db body file tool rental aiResult
                       comparisonResult damageScore timestamp in
                   _ ← writeDB
                         (with_return db toolIndex rentalIndex tool rental
                            returnDate (Upload.filename file) logEntry);
                   send (returned (AIResult.confidence aiResult))
               end)
            (fun _ =>
               found ← existsSync (Upload.path file);
               _ ← (if found : bool then unlinkSync (Upload.path file)
                    else mret tt);
               send ReturnError)
      end
  end.

Definition LogNotFound : response := json 400 false "Log not found.".
Definition LogToolNotFound : response := json 404 false "Tool not found.".

Definition resolved (logId : jsval) : response :=
  json 200 true ("Log " ++ js_to_string logId ++ " resolved.").

Definition set_action (a : log_action) (l : Log.t) : Log.t :=
  Log.mk (Log.id l) (Log.toolId l) (Log.userId l) (Log.userName l)
    (Log.rentalId l) (Log.beforeImage l) (Log.afterImage l)
    (Log.damageScore l) (Log.aiDetected l) (Log.aiConfidence l)
    (Log.damageDetected l) (Log.damageConfidence l) (Log.imageSimilarity l)
    (Log.status l) (Log.timestamp l) a.

(** The branch on [action] of the audit route. *)
Definition apply_action (action : jsval) (t : tool) : tool :=
  if decide (action = JStr "Repaired") then
    set_counts (Tool.quantity t) (Tool.rented t)
      (num_add (Tool.available t) (Int 1)) t
  else if decide (action = JStr "Remove") then
    let quantity := num_max (Int 0) (num_sub (Tool.quantity t) (Int 1)) in
    set_counts quantity (Tool.rented t)
      (num_min (Tool.available t) quantity) t
  else if decide (action = JStr "MakeAvailable") then
    set_counts (Tool.quantity t) (Tool.rented t)
      (num_add (Tool.available t) (Int 1)) t
  else t.

(** [app.post('/api/admin/logs/action', ...)] *)
Definition post_admin_logs_action (body : ActionBody.t) : M response :=
  db ← readDB;
  match list_find
          (fun l => num_eqb (Log.id l) (parseInt (ActionBody.logId body)) = true)
          (Document.logs db) with
  | None => send LogNotFound
  | Some (logIndex, log) =>
      let logs' := <[logIndex := set_action RESOLVED log]> (Document.logs db) in
      match find_tool (Log.toolId log) db with
      | None =>
          _ ← writeDB (set_logs logs' db);
          send LogToolNotFound
      | Some (toolIndex, tool) =>
          let tool' := apply_action (ActionBody.action body) tool in
          _ ← writeDB
                (set_logs logs'
                   (set_tools (<[toolIndex := tool']> (Document.tools db)) db));
          send (resolved (ActionBody.logId body))
      end
  end.

(** The document at rest: what the next request will load. *)
Definition stored (w : world) : document :=
  match World.files w !! DB_PATH with
  | Some (Json d) => d
  | _ => emptyDB
  end.

(** *** What a crash during a save can leave on disk

    The [fs] calls of a function, in order.  A process killed during
    [writeFileSync] leaves the target with any number of bytes of the
    text; [renameSync] replaces the target in one step. *)

Inductive fsop :=
  | WriteFile (p : string) (d : document)
  | Rename (src dst : string).

Definition run_op (op : fsop) (fs : gmap string (file float))
  : gmap string (file float) :=
  match op with
  | WriteFile p d => <[p := Json d]> fs
  | Rename src dst =>
      match fs !! src with
      | Some x => <[dst := x]> (delete src fs)
      | None => fs
      end
  end.

Inductive during : fsop -> gmap string (file float) ->
                   gmap string (file float) -> Prop :=
  | during_before op fs : during op fs fs
  | during_write p d k fs : during (WriteFile p d) fs (<[p := Partial d k]> fs).

Inductive crash : list fsop -> gmap string (file float) ->
                  gmap string (file float) -> Prop :=
  | crash_done fs : crash [] fs fs
  | crash_during op ops fs fs' :
      during op fs fs' -> crash (op :: ops) fs fs'
  | crash_after op ops fs fs' :
      crash ops (run_op op fs) fs' -> crash (op :: ops) fs fs'.

(** The [fs] calls of [writeDB], and of [checkDBFile] when it creates the
    file. *)
Definition writeDB_ops (data : document) : list fsop :=
  [WriteFile tempPath data; Rename tempPath DB_PATH].

Definition initialDB : document :=
  Document.mk
    (Some (Admin.mk "admin@rentalhub.com" "admin123" "admin"
             "System Administrator"))
    [] [] [] [].

Definition checkDBFile_ops : list fsop := [WriteFile DB_PATH initialDB].

(** *** The invariant on counts *)



(** *** Start-up and the remaining routes

    The routes that answer with the resource itself return it as the
    value of the handler. *)

(** [checkDBFile()].  The plain [writeFileSync] on [DB_PATH] meets the
    fault drawn for it; there is no rename to fail. *)
Definition checkDBFile : M bool :=
  try_catch
    (found ← existsSync DB_PATH;
     if found : bool then mret true
     else
       f ← next_fault;
       _ ← writeFileSync f DB_PATH initialDB;
       mret true)
    (fun _ => mret false).

(** [app.get('/api/tools', ...)] *)
Definition get_tools : M (list tool) :=
  db ← readDB;
  mret (Document.tools db).

(** [app.get('/api/tools/:id', ...)] *)
Definition get_tool (id : string) : M tool :=
  db ← readDB;
  match find_tool (JStr id) db with
  | Some (_, t) => mret t
  | None => send (json 404 false "Tool not found")
  end.

Definition ToolDeleted : response :=
  json 200 true "Tool deleted successfully.".

Definition DeleteNotFound : response := json 404 false "Tool not found.".

(** [db.tools.filter(t => t.id !== toolId)] *)
Definition without_tool (toolId : string) (ts : list tool) : list tool :=
  List.filter (fun t => negb (String.eqb (Tool.id t) toolId)) ts.

(** [app.delete('/api/admin/tools/:toolId', ...)] *)
Definition delete_admin_tools (toolId : string) : M response :=
  db ← readDB;
  let initialLength := length (Document.tools db) in
  let tools' := without_tool toolId (Document.tools db) in
  if (length tools' <? initialLength)%nat then
    _ ← writeDB (set_tools tools' db);
    send ToolDeleted
  else send DeleteNotFound.

(** The object the rentals route builds for one rental. *)
Definition rental_view (db : document) (r : rental) : RentalView.t float :=
  match find_tool (Rental.toolId r) db with
  | Some (_, t) =>
      RentalView.mk r (Tool.name t)
        ("/uploads/before/" ++ js_to_string (Tool.beforeImage t))
  | None => RentalView.mk r (JStr "Unknown Tool") ""
  end.

(** [app.get('/api/rentals/user/:userId', ...)] *)
Definition get_user_rentals (userId : string) : M (list (RentalView.t float)) :=
  let userId := parseInt (JStr userId) in
  db ← readDB;
  mret (map (rental_view db)
          (List.filter (fun r => num_eqb (Rental.userId r) userId)
             (Document.rentals db))).

(** [db.logs.find(l => l.id === parseInt(logId))], as the audit route
    writes it, with the index of the entry found. *)
Definition find_log (logId : jsval) (db : document) : option (nat * Log.t) :=
  list_find (fun l => num_eqb (Log.id l) (parseInt logId) = true)
    (Document.logs db).

(** [db.admin.email], [db.admin.password]: absent on the [{}] that
    [readDB] falls back to. *)
Definition admin_field (f : Admin.t -> string) (db : document) : jsval :=
  match Document.admin db with
  | Some a => JStr (f a)
  | None => JUndefined
  end.

(** [app.post('/api/login', ...)], the branch [role === 'admin']. *)
Definition post_login_admin (email password : jsval) : M login_reply :=
  db ← readDB;
  if js_eq (admin_field Admin.email db) email
     && js_eq (admin_field Admin.password db) password
  then mret (LoggedIn "admin" "admin")
  else mret (LoginRefused "Invalid admin credentials.").

End Server.

(** What the specification says of the identifier of a new tool:
    lowercase the name and keep the characters of [[a-z0-9-]]. *)
Definition spec_keeps (c : ascii) : bool :=
  is_lower c || is_digit c || Ascii.eqb c "-".

Fixpoint string_filter (f : ascii -> bool) (s : string) : string :=
  match s with
  | EmptyString => EmptyString
  | String c s' =>
      if f c then String c (string_filter f s') else string_filter f s'
  end.

Definition spec_toolId (name : string) : string :=
  string_filter spec_keeps (toLowerCase name).

(** Names written with letters, digits and hyphens only. *)
Definition plain_char (c : ascii) : bool :=
  is_upper c || is_lower c || is_digit c || Ascii.eqb c "-".

Fixpoint string_forall (f : ascii -> bool) (s : string) : bool :=
  match s with
  | EmptyString => true
  | String c s' => f c && string_forall f s'
  end.

(** ** A concrete shop, to run the handlers on

    Prices are whole numbers here: [parseFloat_whole] is [parseFloat] on
    texts without fraction or exponent.  The examples never measure the
    database file, whose length is left at 0. *)
Module Demo.

Definition parseFloat_whole (v : jsval) : num :=
  match v with
  | JUndefined => NaN
  | JStr s =>
      let '(sign, s) := split_sign (trim_start s) in
      match parse_digits 10 None s with
      | Some v => Int (sign * v)
      | None => NaN
      end
  end.

Definition stringify_length (d : Document.t num) : Z := 0.
Definition dirname : string := "/app/backend".

Definition drill (quantity rented available : Z) (beforeImage : jsval)
  : Tool.t num :=
  Tool.mk "drill" (JStr "Drill") beforeImage (Int 10) (Int quantity)
    (Int rented) (Int available) (JStr "New tool added.") defaultSpecs.

Definition rental1 (status : rental_status) : Rental.t num :=
  Rental.mk "r-1" (JStr "drill") (Int 7) (JStr "Ada") (JStr "ada@example.org")
    (Int 3) (Int 30) "2024-01-01T09:00:00.000Z" status None None.

Definition log1 : Log.t :=
  Log.mk (Int 1) (JStr "drill") (Int 7) (JStr "Ada") (JStr "r-1") JUndefined
    "7_drill_return_1.jpg" 70 false 0 true 70 0 "Available"
    "2024-01-04T09:00:00.000Z" AUTO_RESOLVED.

Definition shop (t : Tool.t num) (rs : list (Rental.t num)) (ls : list Log.t)
  : Document.t num :=
  Document.mk None [] [t] rs ls.

Definition afterPath : string :=
  "/app/backend/uploads/after/7_drill_return_1.jpg".

Definition upload : Upload.t :=
  Upload.mk afterPath "drill_after.jpg" 120000 "7_drill_return_1.jpg".

(** The shop on disk with the uploaded photograph next to it; every
    [Math.random()] returns [r] and every save meets the fault [f]. *)
Definition world (db : Document.t num) (r : Q) (f : fault) : World.t num :=
  World.mk
    (<[afterPath := Blob 120000]> {[ DB_PATH dirname := Json db ]})
    0%nat
    (fun _ => r)
    (fun _ => "2024-01-04T09:00:00.000Z")
    (fun _ => "r-2")
    (fun _ => f).

Definition returnBody : ReturnBody.t :=
  ReturnBody.mk (JStr "drill") (JStr "r-1") (JStr "7").

Definition toolBody (name quantity : string) : ToolBody.t :=
  ToolBody.mk JUndefined (JStr name) (JStr "10") (JStr quantity) JUndefined
    JUndefined None.

Definition updateBody (quantity : string) : ToolBody.t :=
  ToolBody.mk (JStr "drill") (JStr "Drill") (JStr "10") (JStr quantity)
    JUndefined JUndefined None.

Definition rentBody : RentBody.t :=
  RentBody.mk (JStr "drill") (JStr "7") (JStr "Ada") (JStr "ada@example.org")
    (JStr "3") (JStr "30").



(** One drill out of two is rented out. *)
Definition rentedShop (beforeImage : jsval) : Document.t num :=
  shop (drill 2 1 1 beforeImage) [rental1 RENTED] [].

(** Both drills are in, the rental is closed and logged. *)
Definition returnedShop : Document.t num :=
  shop (drill 2 0 2 JUndefined) [rental1 RETURNED] [log1].

(** A second tool, and a return request that names it together with
    the rental of the drill. *)
Definition saw : Tool.t num :=
  Tool.mk "saw" (JStr "Saw") JUndefined (Int 15) (Int 1) (Int 0) (Int 1)
    (JStr "New tool added.") defaultSpecs.

Definition twoToolShop : Document.t num :=
  Document.mk None [] [drill 2 1 1 JUndefined; saw] [rental1 RENTED] [].

Definition returnBodySaw : ReturnBody.t :=
  ReturnBody.mk (JStr "saw") (JStr "r-1") (JStr "9").

(** A disk that holds nothing, or a database file cut short, and the
    uploaded photograph. *)
Definition bare_world (db : option (file num)) (f : fault) : World.t num :=
  World.mk
    (match db with
     | Some x => <[afterPath := Blob 120000]> {[ DB_PATH dirname := x ]}
     | None => {[ afterPath := Blob 120000 ]}
     end)
    0%nat (fun _ => 0%Q) (fun _ => "2024-01-04T09:00:00.000Z")
    (fun _ => "r-2") (fun _ => f).

Definition rent := post_rent parseFloat_whole dirname.
Definition give_back :=
  post_return_check stringify_length dirname returnBody (Some upload).
Definition admin_tools := post_admin_tools parseFloat_whole dirname.
Definition resolve := @post_admin_logs_action num dirname.
Definition at_rest := @stored num dirname.
Definition remove := @delete_admin_tools num dirname.

End Demo.

(** * Properties *)

Section Properties.

Context {float : Type}.
Variable parseFloat : jsval -> float.
Variable stringify_length : Document.t float -> Z.
Variable dirname : string.

Local Abbreviation world := (World.t float).
Local Abbreviation document := (Document.t float).

(** ** The database functions *)

Lemma length_append (s t : string) :
  String.length (s ++ t) = (String.length s + String.length t)%nat.
Proof. induction s as [|c s IH]; simpl; [reflexivity | by rewrite IH]. Qed.

Lemma tempPath_fresh : tempPath dirname ≠ DB_PATH dirname.
Proof.
  unfold tempPath. generalize (DB_PATH dirname). intros s H.
  assert (E : String.length (s ++ ".tmp") = String.length s) by (by rewrite H).
  rewrite length_append in E. simpl in E. lia.
Qed.

Lemma readDB_run (w : world) : readDB dirname w = (Ret (stored dirname w), w).
Proof.
  unfold readDB, stored.
  destruct (World.files w !! DB_PATH dirname) as [[d|d k|n]|]; reflexivity.
Qed.

(** [writeDB] always returns: [true] after the rename, [false] when one of
    the two [fs] calls threw, with the temporary file left as it was. *)
Lemma writeDB_run (data : document) (w : world) :
  writeDB dirname data w =
  match World.faults w 0%nat with
  | NoFault =>
      (Ret true,
       World.mk
         (<[DB_PATH dirname := Json data]>
            (delete (tempPath dirname)
               (<[tempPath dirname := Json data]> (World.files w))))
         (S (World.dbChangeCount w)) (World.random w) (World.dates w)
         (World.uuids w) (shift (World.faults w)))
  | OpenFails =>
      (Ret false,
       World.mk (World.files w) (World.dbChangeCount w) (World.random w)
         (World.dates w) (World.uuids w) (shift (World.faults w)))
  | WriteFails k =>
      (Ret false,
       World.mk (<[tempPath dirname := Partial data k]> (World.files w))
         (World.dbChangeCount w) (World.random w) (World.dates w)
         (World.uuids w) (shift (World.faults w)))
  | RenameFails =>
      (Ret false,
       World.mk (<[tempPath dirname := Json data]> (World.files w))
         (World.dbChangeCount w) (World.random w) (World.dates w)
         (World.uuids w) (shift (World.faults w)))
  end.
Proof.
  unfold writeDB, mbind, M_bind, try_catch, next_fault.
  destruct (World.faults w 0%nat) eqn:F; cbn; try reflexivity.
  rewrite lookup_insert_eq. reflexivity.
Qed.

Lemma bind_run {A B} (m : M A) (k : A -> M B) (w w' : world) (a : A) :
  m w = (Ret a, w') -> (m ≫= k) w = k a w'.
Proof. intros E. unfold mbind, M_bind. by rewrite E. Qed.

(** What a save leaves for the next load, and what it does not touch. *)
Lemma writeDB_result (data : document) (w : world) :
  exists w',
    writeDB dirname data w = (Ret (save_ok w), w')
    /\ stored dirname w' = (if save_ok w then data else stored dirname w)
    /\ World.dbChangeCount w' =
       (if save_ok w then S (World.dbChangeCount w) else World.dbChangeCount w)
    /\ World.random w' = World.random w
    /\ (forall p, p ≠ DB_PATH dirname -> p ≠ tempPath dirname ->
        World.files w' !! p = World.files w !! p)
    /\ (save_ok w = false ->
        World.files w' !! DB_PATH dirname = World.files w !! DB_PATH dirname).
Proof.
  pose proof tempPath_fresh as Hne.
  rewrite writeDB_run. unfold save_ok, stored.
  destruct (World.faults w 0%nat); eexists; (split; [reflexivity|]); cbn;
    repeat split; intros; by simplify_map_eq.
Qed.

(** The environment calls, in continuation form. *)
Lemma bind_uuidv4 {B} (k : string -> M B) (w : world) :
  (uuidv4 ≫= k) w =
  k (World.uuids w 0%nat)
    (World.mk (World.files w) (World.dbChangeCount w) (World.random w)
       (World.dates w) (shift (World.uuids w)) (World.faults w)).
Proof. reflexivity. Qed.

Lemma bind_new_Date {B} (k : string -> M B) (w : world) :
  (new_Date ≫= k) w =
  k (World.dates w 0%nat)
    (World.mk (World.files w) (World.dbChangeCount w) (World.random w)
       (shift (World.dates w)) (World.uuids w) (World.faults w)).
Proof. reflexivity. Qed.

Lemma bind_Math_random {B} (k : Q -> M B) (w : world) :
  (Math_random ≫= k) w = k (World.random w 0%nat) (skip_random 1 w).
Proof. reflexivity. Qed.

Lemma bind_bind {A B C} (m : M A) (f : A -> M B) (g : B -> M C) (w : world) :
  ((m ≫= f) ≫= g) w = (m ≫= fun a => f a ≫= g) w.
Proof. unfold mbind, M_bind. by destruct (m w) as [[a|r|e] w']. Qed.

Lemma bind_mret {A B} (a : A) (k : A -> M B) (w : world) :
  (mret a ≫= k) w = k a w.
Proof. reflexivity. Qed.

(** ** Renting *)

(** The two ways a rent request is turned down. *)
Lemma post_rent_refused (body : RentBody.t) (w : world) :
  match find_tool (RentBody.toolId body) (stored dirname w) with
  | None => True
  | Some (_, t) => num_leb (Tool.available t) (Int 0) = true
  end ->
  post_rent parseFloat dirname body w = (Sent ToolUnavailable, w).
Proof.
  intros H. unfold post_rent.
  rewrite (bind_run _ _ _ _ _ (readDB_run w)).
  destruct (find_tool _ _) as [[i t]|]; [by rewrite H | reflexivity].
Qed.

(** C4. A rent request for an existing tool whose [available] is 0 is
    answered 400 "Tool is unavailable." and changes nothing: the file
    system, the write counter and the pending random values are those of
    before, so neither the counts nor the rentals were touched. *)
Theorem rent_out_of_stock (body : RentBody.t) (w : world) (i : nat)
    (t : Tool.t float) :
  find_tool (RentBody.toolId body) (stored dirname w) = Some (i, t) ->
  Tool.available t = Int 0 ->
  post_rent parseFloat dirname body w = (Sent ToolUnavailable, w)
  /\ Response.code (@ToolUnavailable float) = 400
  /\ Response.success (@ToolUnavailable float) = false
  /\ Response.message (@ToolUnavailable float) = "Tool is unavailable.".
Proof.
  intros Hfind Havail. split; [|by repeat split].
  apply post_rent_refused. by rewrite Hfind, Havail.
Qed.

(** C9. A rent request whose [toolId] names no tool gets the very
    response of the out-of-stock case, 400 "Tool is unavailable.", and
    changes nothing. *)
Theorem rent_unknown_tool (body : RentBody.t) (w : world) :
  find_tool (RentBody.toolId body) (stored dirname w) = None ->
  post_rent parseFloat dirname body w = (Sent ToolUnavailable, w)
  /\ Response.code (@ToolUnavailable float) = 400
  /\ Response.success (@ToolUnavailable float) = false
  /\ Response.message (@ToolUnavailable float) = "Tool is unavailable.".
Proof.
  intros Hfind. split; [|by repeat split].
  apply post_rent_refused. by rewrite Hfind.
Qed.

(** A rent request for a tool in stock: the response and what is saved. *)
Lemma post_rent_run (body : RentBody.t) (w : world) (i : nat)
    (t : Tool.t float) :
  find_tool (RentBody.toolId body) (stored dirname w) = Some (i, t) ->
  num_leb (Tool.available t) (Int 0) = false ->
  let r := newRental parseFloat body (World.uuids w 0%nat)
             (World.dates w 0%nat) in
  exists w',
    post_rent parseFloat dirname body w = (Sent (rented_out r), w')
    /\ stored dirname w' =
       (if save_ok w then with_rental (stored dirname w) i t r
        else stored dirname w).
Proof.
  intros Hfind Hav r. unfold post_rent.
  rewrite (bind_run _ _ _ _ _ (readDB_run w)), Hfind, Hav.
  rewrite bind_uuidv4, bind_new_Date.
  match goal with
  | |- context [(writeDB _ ?d ≫= _) ?x] =>
      destruct (writeDB_result d x) as (w' & E & Hst & _)
  end.
  rewrite (bind_run _ _ _ _ _ E). exists w'. split; [reflexivity|].
  exact Hst.
Qed.

(** C10. In the rental of a successful rent request, [totalPrice] is
    [parseFloat] of the field of that name in the body and [rentDays] is
    [parseInt] of the field of that name; that rental is the one appended
    to the saved document; and the request succeeds whatever those two
    fields hold, since any body naming the same tool succeeds as well. *)
Theorem rent_keeps_client_figures (body : RentBody.t) (w w' : world)
    (r : Response.t float) :
  post_rent parseFloat dirname body w = (Sent r, w') ->
  Response.success r = true ->
  exists rental,
    Response.body r = RentalPayload rental
    /\ Rental.totalPrice rental = parseFloat (RentBody.totalPrice body)
    /\ Rental.rentDays rental = parseInt (RentBody.rentDays body)
    /\ (save_ok w = true ->
        Document.rentals (stored dirname w') =
        (Document.rentals (stored dirname w) ++ [rental])%list)
    /\ (forall body' : RentBody.t,
          RentBody.toolId body' = RentBody.toolId body ->
          exists r2 w2,
            post_rent parseFloat dirname body' w = (Sent r2, w2)
            /\ Response.success r2 = true).
Proof.
  intros Hrun Hok.
  destruct (find_tool (RentBody.toolId body) (stored dirname w))
    as [[i t]|] eqn:Hfind.
  2: { rewrite post_rent_refused in Hrun by (by rewrite Hfind).
       by injection Hrun as <- <-. }
  destruct (num_leb (Tool.available t) (Int 0)) eqn:Hav.
  { rewrite post_rent_refused in Hrun by (by rewrite Hfind).
    by injection Hrun as <- <-. }
  destruct (post_rent_run body w i t Hfind Hav) as (w1 & E & Hst).
  rewrite E in Hrun. injection Hrun as <- <-.
  eexists. split; [reflexivity|]. split; [reflexivity|].
  split; [reflexivity|]. split.
  - intros Hs. rewrite Hst, Hs. reflexivity.
  - intros body' Hsame. rewrite <- Hsame in Hfind.
    destruct (post_rent_run body' w i t Hfind Hav) as (w2 & E2 & _).
    eauto.
Qed.


(** ** Creating and updating tools *)

Lemma post_admin_tools_update (body : ToolBody.t) (w : world) (i : nat)
    (t : Tool.t float) :
  find_tool (ToolBody.id body) (stored dirname w) = Some (i, t) ->
  if num_ltb (parseInt (ToolBody.quantity body)) (Tool.rented t) then
    post_admin_tools parseFloat dirname body w =
    (Sent (QuantityBelowRented (Tool.rented t)), w)
  else
    exists w',
      post_admin_tools parseFloat dirname body w =
      (Sent (toolUpdated (updatedTool parseFloat body t)), w')
      /\ stored dirname w' =
         (if save_ok w
          then set_tools (<[i := updatedTool parseFloat body t]>
                            (Document.tools (stored dirname w)))
                 (stored dirname w)
          else stored dirname w).
Proof.
  intros Hfind. unfold post_admin_tools.
  rewrite (bind_run _ _ _ _ _ (readDB_run w)), Hfind.
  destruct (num_ltb _ _); [reflexivity|].
  match goal with
  | |- context [(writeDB _ ?d ≫= _) ?x] =>
      destruct (writeDB_result d x) as (w' & E & Hst & _)
  end.
  rewrite (bind_run _ _ _ _ _ E). eauto.
Qed.

Lemma post_admin_tools_create (body : ToolBody.t) (w : world)
    (name : string) :
  find_tool (ToolBody.id body) (stored dirname w) = None ->
  ToolBody.name body = JStr name ->
  if id_taken (newToolId name) (stored dirname w) then
    post_admin_tools parseFloat dirname body w = (Sent DuplicateTool, w)
  else
    exists w',
      post_admin_tools parseFloat dirname body w =
      (Sent (toolAdded (newTool parseFloat body name)), w')
      /\ stored dirname w' =
         (if save_ok w
          then set_tools (Document.tools (stored dirname w)
                            ++ [newTool parseFloat body name])
                 (stored dirname w)
          else stored dirname w).
Proof.
  intros Hfind Hname. unfold post_admin_tools.
  rewrite (bind_run _ _ _ _ _ (readDB_run w)), Hfind, Hname.
  destruct (id_taken _ _); [reflexivity|].
  match goal with
  | |- context [(writeDB _ ?d ≫= _) ?x] =>
      destruct (writeDB_result d x) as (w' & E & Hst & _)
  end.
  rewrite (bind_run _ _ _ _ _ E). eauto.
Qed.

Lemma id_taken_spec (s : string) (db : document) :
  id_taken s db = true <-> exists t, t ∈ Document.tools db /\ Tool.id t = s.
Proof.
  unfold id_taken. rewrite existsb_exists. split.
  - intros (t & Hin & E). exists t. split; [by apply list_elem_of_In|].
    by apply String.eqb_eq.
  - intros (t & Hin & E). exists t. split; [by apply list_elem_of_In|].
    by apply String.eqb_eq.
Qed.

(** The identifier is the name, character by character. *)
Lemma newToolId_map (name : string) :
  newToolId name = string_map (fun c => dash_char (lower_char c)) name.
Proof.
  unfold newToolId, toLowerCase.
  induction name as [|c s IH]; simpl; [reflexivity | by rewrite IH].
Qed.




Lemma plain_char_same (c : ascii) :
  plain_char c = true ->
  spec_keeps (lower_char c) = true /\ dash_char (lower_char c) = lower_char c.
Proof.
  destruct c as [[] [] [] [] [] [] [] []]; vm_compute; intros; try done.
Qed.

(** On plain names the source and the specification agree. *)
Lemma newToolId_plain (name : string) :
  string_forall plain_char name = true -> newToolId name = spec_toolId name.
Proof.
  rewrite newToolId_map. unfold spec_toolId, toLowerCase.
  induction name as [|c s IH]; simpl; [reflexivity|].
  intros [Hc Hs]%andb_true_iff.
  destruct (plain_char_same c Hc) as [-> ->]. by rewrite IH.
Qed.


(** ** The scorers *)

Lemma detectAIImage_run (filePath fileName : string) (fileSize : Z)
    (w : world) :
  detectAIImage filePath fileName fileSize w =
  (Ret (ai_result fileName fileSize (World.random w 0%nat)
          (World.random w 1%nat) (World.random w 2%nat)
          (World.random w 3%nat)),
   skip_random 4 w).
Proof. reflexivity. Qed.

Lemma compareImages_run (p1 p2 : string) (w : world) :
  compareImages stringify_length p1 p2 w =
  match World.files w !! p1, World.files w !! p2 with
  | Some f1, Some f2 =>
      (Ret (compare_sizes (file_size stringify_length f1)
              (file_size stringify_length f2) (World.random w 0%nat)),
       skip_random 1 w)
  | _, _ => (Ret (Comparison.mk false 0 (Some "ENOENT")), w)
  end.
Proof.
  unfold compareImages, try_catch, mbind, M_bind, statSync.
  destruct (World.files w !! p1); [|reflexivity].
  destruct (World.files w !! p2); reflexivity.
Qed.

Lemma Qgtb_lt (x y : Q) : Qgtb x y = true <-> (y < x)%Q.
Proof.
  unfold Qgtb. rewrite negb_true_iff, <- not_true_iff_false, Qle_bool_iff.
  split; [apply Qnot_le_lt | apply Qlt_not_le].
Qed.


(** A comparison that passes scores 60 or more. *)
Lemma compare_pass_score (size1 size2 : Z) (r : Q) :
  Comparison.similar (compare_sizes size1 size2 r) = true ->
  60 <= Comparison.score (compare_sizes size1 size2 r).
Proof.
  unfold compare_sizes. cbn [Comparison.similar Comparison.score].
  match goal with |- Qgtb ?x _ = true -> _ => generalize x end.
  intros final Hgt%Qgtb_lt. unfold Math_round.
  rewrite <- (Qfloor_Z 60). apply Qfloor_resp_le.
  change (inject_Z 60) with (60 # 1). lra.
Qed.

(** ** Returning a tool *)

Lemma image_comparison_skipped (t : Tool.t float) (up : Upload.t)
    (w : world) :
  truthy (Tool.beforeImage t) = false
  \/ World.files w !! originalPath dirname t = None ->
  image_comparison stringify_length dirname t up w =
  (Ret (Comparison.mk false 0 None), w).
Proof.
  unfold image_comparison. intros [H|H].
  - by rewrite H.
  - destruct (truthy _); [|reflexivity].
    unfold mbind at 1, M_bind at 1, existsSync. rewrite H.
    reflexivity.
Qed.

Lemma image_comparison_ran (t : Tool.t float) (up : Upload.t)
    (w : world) (f0 f : file float) :
  truthy (Tool.beforeImage t) = true ->
  World.files w !! originalPath dirname t = Some f0 ->
  World.files w !! Upload.path up = Some f ->
  let c := compare_sizes (file_size stringify_length f0)
             (file_size stringify_length f) (World.random w 0%nat) in
  image_comparison stringify_length dirname t up w =
  if negb (Comparison.similar c) || (Comparison.score c <? 60)
  then (Sent (ImageMismatch (Tool.name t)),
        set_files (delete (Upload.path up) (World.files w))
          (skip_random 1 w))
  else (Ret c, skip_random 1 w).
Proof.
  intros Ht H0 Hf c. unfold image_comparison.
  rewrite Ht. unfold mbind at 1, M_bind at 1, existsSync. rewrite H0.
  rewrite bool_decide_eq_true_2 by eauto.
  unfold mbind at 1, M_bind at 1. rewrite compareImages_run, H0, Hf.
  fold c. destruct (negb _ || _); [|reflexivity].
  unfold mbind, M_bind, unlinkSync. cbn. rewrite Hf. reflexivity.
Qed.


(** When the comparison step hands over a result, it has only used up
    random values. *)
Lemma image_comparison_ret (t : Tool.t float) (up : Upload.t)
    (w w2 : world) (c : Comparison.t) :
  image_comparison stringify_length dirname t up w = (Ret c, w2) ->
  World.files w2 = World.files w
  /\ World.dates w2 = World.dates w
  /\ World.faults w2 = World.faults w
  /\ World.dbChangeCount w2 = World.dbChangeCount w.
Proof.
  destruct (truthy (Tool.beforeImage t)) eqn:Ht.
  2: { rewrite image_comparison_skipped by auto. by intros [= _ <-]. }
  destruct (World.files w !! originalPath dirname t) as [f0|] eqn:H0.
  2: { rewrite image_comparison_skipped by auto. by intros [= _ <-]. }
  destruct (World.files w !! Upload.path up) as [f|] eqn:Hf.
  - rewrite (image_comparison_ran t up w f0 f Ht H0 Hf).
    destruct (negb _ || _); [discriminate|]. by intros [= _ <-].
  - unfold image_comparison. rewrite Ht.
    unfold mbind at 1, M_bind at 1, existsSync. rewrite H0.
    rewrite bool_decide_eq_true_2 by eauto.
    unfold mbind at 1, M_bind at 1. rewrite compareImages_run, H0, Hf.
    cbn. unfold mbind, M_bind, unlinkSync. rewrite Hf. discriminate.
Qed.

(** The run of a return request that passes both gates and names an
    existing rental: it is answered with success whatever the save does,
    and the document handed to [writeDB] is the loaded one with the
    rental marked, the tool taken back and one log entry more. *)
Lemma post_return_check_commit (body : ReturnBody.t) (up : Upload.t)
    (w w2 : world) (ti ri : nat) (t : Tool.t float) (r : Rental.t float)
    (c : Comparison.t) :
  find_tool (ReturnBody.toolId body) (stored dirname w) = Some (ti, t) ->
  let ai := ai_result (Upload.originalname up) (Upload.size up)
              (World.random w 0%nat) (World.random w 1%nat)
              (World.random w 2%nat) (World.random w 3%nat) in
  AIResult.allow_upload ai = true ->
  image_comparison stringify_length dirname t up (skip_random 4 w)
    = (Ret c, w2) ->
  find_rental (ReturnBody.rentalId body) (stored dirname w) = Some (ri, r) ->
  exists w' score,
    let l := logEntry (stored dirname w) body up t r ai c score
               (World.dates w 1%nat) in
    post_return_check stringify_length dirname body (Some up) w
      = (Sent (returned (AIResult.confidence ai)), w')
    /\ stored dirname w' =
       (if save_ok w
        then with_return (stored dirname w) ti ri t r (World.dates w 0%nat)
               (Upload.filename up) l
        else stored dirname w)
    /\ World.dbChangeCount w' =
       (if save_ok w then S (World.dbChangeCount w)
        else World.dbChangeCount w).
Proof.
  intros Hfind ai Hallow Hcmp Hrental.
  destruct (image_comparison_ret _ _ _ _ _ Hcmp) as (Hfiles & Hdates & Hfaults & Hcount).
  cbn in Hfiles, Hdates, Hfaults, Hcount.
  unfold post_return_check.
  rewrite (bind_run _ _ _ _ _ (readDB_run w)), Hfind.
  unfold try_catch.
  rewrite (bind_run _ _ _ _ _ (detectAIImage_run _ _ _ w)).
  fold ai. rewrite Hallow. cbn [negb].
  rewrite (bind_run _ _ _ _ _ Hcmp), Hrental.
  rewrite bind_new_Date.
  unfold damageScore.
  destruct (AIResult.damage_detected ai).
  - rewrite bind_mret, bind_new_Date.
    match goal with
    | |- context [(writeDB _ ?d ≫= _) ?x] =>
        destruct (writeDB_result d x) as (w' & E & Hst & Hc & _)
    end.
    rewrite (bind_run _ _ _ _ _ E). exists w'. eexists.
    unfold save_ok, stored in *. cbn in *.
    rewrite Hfiles, Hdates, Hfaults, Hcount in *.
    split; [reflexivity|]. split; [exact Hst | exact Hc].
  - rewrite bind_bind, bind_Math_random, bind_mret, bind_new_Date.
    match goal with
    | |- context [(writeDB _ ?d ≫= _) ?x] =>
        destruct (writeDB_result d x) as (w' & E & Hst & Hc & _)
    end.
    rewrite (bind_run _ _ _ _ _ E). exists w'. eexists.
    unfold save_ok, stored in *. cbn in *.
    rewrite Hfiles, Hdates, Hfaults, Hcount in *.
    split; [reflexivity|]. split; [exact Hst | exact Hc].
Qed.


Lemma find_tool_lookup (id : jsval) (db : document) (i : nat)
    (t : Tool.t float) :
  find_tool id db = Some (i, t) -> Document.tools db !! i = Some t.
Proof. unfold find_tool. by intros (H & _)%list_find_Some. Qed.

Lemma find_rental_lookup (id : jsval) (db : document) (i : nat)
    (r : Rental.t float) :
  find_rental id db = Some (i, r) -> Document.rentals db !! i = Some r.
Proof. unfold find_rental. by intros (H & _)%list_find_Some. Qed.


(** C3, as the code has it.  A return request that reaches the save is
    answered with success whether [writeDB] returns [true] or [false]
    (it returns [save_ok w]); when the save fails the stored document and
    the write counter are those of before. *)
Theorem return_reply_ignores_save (body : ReturnBody.t) (up : Upload.t)
    (w w2 : world) (ti ri : nat) (t : Tool.t float) (r : Rental.t float)
    (c : Comparison.t) :
  find_tool (ReturnBody.toolId body) (stored dirname w) = Some (ti, t) ->
  let ai := ai_result (Upload.originalname up) (Upload.size up)
              (World.random w 0%nat) (World.random w 1%nat)
              (World.random w 2%nat) (World.random w 3%nat) in
  AIResult.allow_upload ai = true ->
  image_comparison stringify_length dirname t up (skip_random 4 w)
    = (Ret c, w2) ->
  find_rental (ReturnBody.rentalId body) (stored dirname w) = Some (ri, r) ->
  exists w',
    post_return_check stringify_length dirname body (Some up) w
      = (Sent (returned (AIResult.confidence ai)), w')
    /\ Response.success (@returned float (AIResult.confidence ai)) = true
    /\ Response.code (@returned float (AIResult.confidence ai)) = 200
    /\ (forall (d : document) (w0 : world),
         World.faults w0 = World.faults w ->
         fst (writeDB dirname d w0) = Ret (save_ok w))
    /\ (save_ok w = false ->
        stored dirname w' = stored dirname w
        /\ World.dbChangeCount w' = World.dbChangeCount w).
Proof.
  intros Hfind ai Hallow Hcmp Hrental.
  destruct (post_return_check_commit body up w w2 ti ri t r c
              Hfind Hallow Hcmp Hrental) as (w' & score & Hrun & Hst & Hc).
  exists w'. split; [exact Hrun|]. split; [reflexivity|].
  split; [reflexivity|]. split.
  - intros d w0 Hf. destruct (writeDB_result d w0) as (w3 & E & _).
    rewrite E. unfold save_ok. by rewrite Hf.
  - intros Hs. rewrite Hs in Hst, Hc. by split.
Qed.


Lemma stored_delete (w : world) (p : string) :
  p ≠ DB_PATH dirname ->
  stored dirname (set_files (delete p (World.files w)) w) = stored dirname w.
Proof. intros Hp. unfold stored. cbn. by rewrite lookup_delete_ne. Qed.



(** ** The invariant on counts *)










(** Whatever the comparison step does, it leaves the files alone or
    deletes the upload. *)
Lemma image_comparison_files (t : Tool.t float) (up : Upload.t)
    (w w2 : world) (o : outcome float Comparison.t) :
  image_comparison stringify_length dirname t up w = (o, w2) ->
  World.files w2 = World.files w
  \/ World.files w2 = delete (Upload.path up) (World.files w).
Proof.
  destruct (truthy (Tool.beforeImage t)) eqn:Ht.
  2: { rewrite image_comparison_skipped by auto. intros [= _ <-]. by left. }
  destruct (World.files w !! originalPath dirname t) as [f0|] eqn:H0.
  2: { rewrite image_comparison_skipped by auto. intros [= _ <-]. by left. }
  destruct (World.files w !! Upload.path up) as [f|] eqn:Hf.
  - rewrite (image_comparison_ran t up w f0 f Ht H0 Hf).
    destruct (negb _ || _); intros [= _ <-]; [by right | by left].
  - unfold image_comparison. rewrite Ht.
    unfold mbind at 1, M_bind at 1, existsSync. rewrite H0.
    rewrite bool_decide_eq_true_2 by eauto.
    unfold mbind at 1, M_bind at 1. rewrite compareImages_run, H0, Hf.
    cbn. unfold mbind, M_bind, unlinkSync. rewrite Hf.
    intros [= _ <-]. by left.
Qed.

Lemma stored_files_or_delete (w1 w2 : world) (p : string) :
  p ≠ DB_PATH dirname ->
  World.files w2 = World.files w1
  \/ World.files w2 = delete p (World.files w1) ->
  stored dirname w2 = stored dirname w1.
Proof.
  intros Hp [E|E]; unfold stored; rewrite E; [done|].
  by rewrite lookup_delete_ne.
Qed.

(** Deleting the upload and answering: the answer, or [ENOENT]. *)
Lemma unlink_then_send (p : string) (r : Response.t float) (w w' : world)
    (o : outcome float (Response.t float)) :
  (unlinkSync p ≫= fun _ => send r) w = (o, w') ->
  World.files w' = World.files w \/ World.files w' = delete p (World.files w).
Proof.
  unfold mbind, M_bind, unlinkSync, send.
  destruct (World.files w !! p); intros [= _ <-]; [by right | by left].
Qed.

(** The [catch] block of the return route. *)
Lemma return_catch (p : string) (w w' : world)
    (o : outcome float (Response.t float)) :
  (existsSync p ≫= fun found : bool =>
     (if found then unlinkSync p else mret tt) ≫= fun _ => send ReturnError) w
    = (o, w') ->
  World.files w' = World.files w \/ World.files w' = delete p (World.files w).
Proof.
  unfold mbind, M_bind, existsSync, unlinkSync, send. cbn.
  destruct (World.files w !! p) eqn:E; cbn.
  - rewrite E. intros [= _ <-]. by right.
  - intros [= _ <-]. by left.
Qed.

(** Every run of the return route leaves the stored document as it was,
    or stores the loaded one with the return applied. *)
Lemma post_return_check_stored (body : ReturnBody.t) (up : Upload.t)
    (w w' : world) (o : outcome float (Response.t float)) :
  Upload.path up ≠ DB_PATH dirname ->
  post_return_check stringify_length dirname body (Some up) w = (o, w') ->
  stored dirname w' = stored dirname w
  \/ exists ti t ri r returnDate l,
      find_tool (ReturnBody.toolId body) (stored dirname w) = Some (ti, t)
      /\ find_rental (ReturnBody.rentalId body) (stored dirname w)
           = Some (ri, r)
      /\ stored dirname w' =
         with_return (stored dirname w) ti ri t r returnDate
           (Upload.filename up) l.
Proof.
  intros Hp.
  destruct (find_tool (ReturnBody.toolId body) (stored dirname w))
    as [[ti t]|] eqn:Hfind.
  2: { unfold post_return_check.
       rewrite (bind_run _ _ _ _ _ (readDB_run w)), Hfind.
       intros [= _ <-]. by left. }
  set (ai := ai_result (Upload.originalname up) (Upload.size up)
               (World.random w 0%nat) (World.random w 1%nat)
               (World.random w 2%nat) (World.random w 3%nat)).
  destruct (AIResult.allow_upload ai) eqn:Hallow.
  2: { unfold post_return_check.
       rewrite (bind_run _ _ _ _ _ (readDB_run w)), Hfind.
       unfold try_catch.
       rewrite (bind_run _ _ _ _ _ (detectAIImage_run _ _ _ w)).
       fold ai. rewrite Hallow. cbn [negb].
       destruct ((unlinkSync (Upload.path up) ≫= _) (skip_random 4 w))
         as [[a|r|e] w1] eqn:E.
       - intros [= _ <-]. left.
         apply unlink_then_send in E.
         by apply (stored_files_or_delete (skip_random 4 w) w1 _ Hp).
       - intros [= _ <-]. left.
         apply unlink_then_send in E.
         by apply (stored_files_or_delete (skip_random 4 w) w1 _ Hp).
       - intros Hc. left.
         apply unlink_then_send in E. apply return_catch in Hc.
         rewrite (stored_files_or_delete w1 w' _ Hp Hc).
         by apply (stored_files_or_delete (skip_random 4 w) w1 _ Hp). }
  destruct (image_comparison stringify_length dirname t up (skip_random 4 w))
    as [[c|r|e] w2] eqn:Hcmp.
  - destruct (find_rental (ReturnBody.rentalId body) (stored dirname w))
      as [[ri r]|] eqn:Hrental.
    + destruct (post_return_check_commit body up w w2 ti ri t r c
                  Hfind Hallow Hcmp Hrental) as (w1 & score & Hrun & Hst & _).
      rewrite Hrun. intros [= _ <-].
      destruct (save_ok w); [right | by left].
      by repeat eexists.
    + unfold post_return_check.
      rewrite (bind_run _ _ _ _ _ (readDB_run w)), Hfind.
      unfold try_catch.
      rewrite (bind_run _ _ _ _ _ (detectAIImage_run _ _ _ w)).
      fold ai. rewrite Hallow. cbn [negb].
      rewrite (bind_run _ _ _ _ _ Hcmp), Hrental.
      apply image_comparison_files in Hcmp.
      pose proof (stored_files_or_delete (skip_random 4 w) w2 _ Hp Hcmp)
        as Hs2.
      destruct ((unlinkSync (Upload.path up) ≫= _) w2)
        as [[a|r|e] w1] eqn:E.
      * intros [= _ <-]. left. apply unlink_then_send in E.
        by rewrite (stored_files_or_delete w2 w1 _ Hp E).
      * intros [= _ <-]. left. apply unlink_then_send in E.
        by rewrite (stored_files_or_delete w2 w1 _ Hp E).
      * intros Hc. left. apply unlink_then_send in E.
        apply return_catch in Hc.
        rewrite (stored_files_or_delete w1 w' _ Hp Hc).
        by rewrite (stored_files_or_delete w2 w1 _ Hp E).
  - unfold post_return_check.
    rewrite (bind_run _ _ _ _ _ (readDB_run w)), Hfind.
    unfold try_catch.
    rewrite (bind_run _ _ _ _ _ (detectAIImage_run _ _ _ w)).
    fold ai. rewrite Hallow. cbn [negb].
    unfold mbind at 1, M_bind at 1. rewrite Hcmp.
    intros [= _ <-]. left. apply image_comparison_files in Hcmp.
    by apply (stored_files_or_delete (skip_random 4 w) w2 _ Hp).
  - unfold post_return_check.
    rewrite (bind_run _ _ _ _ _ (readDB_run w)), Hfind.
    unfold try_catch.
    rewrite (bind_run _ _ _ _ _ (detectAIImage_run _ _ _ w)).
    fold ai. rewrite Hallow. cbn [negb].
    unfold mbind at 1, M_bind at 1. rewrite Hcmp.
    intros Hc. left. apply return_catch in Hc.
    apply image_comparison_files in Hcmp.
    rewrite (stored_files_or_delete w2 w' _ Hp Hc).
    by apply (stored_files_or_delete (skip_random 4 w) w2 _ Hp).
Qed.






(** ** Saving *)

(** [writeDB] makes the two calls of [writeDB_ops], in that order. *)
Lemma writeDB_files (data : document) (w : world) :
  save_ok w = true ->
  World.files (snd (writeDB dirname data w)) =
  run_op (Rename (tempPath dirname) (DB_PATH dirname))
    (run_op (WriteFile (tempPath dirname) data) (World.files w)).
Proof.
  unfold save_ok. rewrite writeDB_run.
  destruct (World.faults w 0%nat); try discriminate. intros _. cbn.
  by rewrite lookup_insert_eq.
Qed.

(** A save that fails stops in one of the states a crash can leave. *)
Lemma writeDB_stops_in_crash_state (data : document) (w : world) :
  crash (writeDB_ops dirname data) (World.files w)
    (World.files (snd (writeDB dirname data w))).
Proof.
  rewrite writeDB_run. unfold writeDB_ops.
  destruct (World.faults w 0%nat); cbn.
  - apply crash_after, crash_after. cbn. rewrite lookup_insert_eq.
    apply crash_done.
  - apply crash_during, during_before.
  - apply crash_during, during_write.
  - apply crash_after, crash_during, during_before.
Qed.

Lemma crash_writeDB_ops (data : document)
    (fs fs' : gmap string (file float)) :
  crash (writeDB_ops dirname data) fs fs' ->
  fs' !! DB_PATH dirname = fs !! DB_PATH dirname
  \/ fs' !! DB_PATH dirname = Some (Json data).
Proof.
  pose proof tempPath_fresh as Hne.
  unfold writeDB_ops. intros H.
  inversion H as [| op ops a b Hd | op ops a b Ha]; subst.
  - inversion Hd; subst; [by left|]. left. by rewrite lookup_insert_ne.
  - inversion Ha as [| op ops a b Hd | op ops a b Hb]; subst.
    + inversion Hd; subst. left. cbn. by rewrite lookup_insert_ne.
    + inversion Hb; subst.
      right. cbn. rewrite lookup_insert_eq. by rewrite lookup_insert_eq.
Qed.

(** C5. A save writes the whole document to the temporary sibling and
    then renames it over the canonical path; whether it completes, fails
    or is cut short, the canonical path holds what it held before or the
    complete new document, never a part of one. *)
Theorem writeDB_crash_safe (data : document) (w : world) :
  writeDB_ops dirname data =
    [WriteFile (tempPath dirname) data;
     Rename (tempPath dirname) (DB_PATH dirname)]
  /\ tempPath dirname ≠ DB_PATH dirname
  /\ (save_ok w = true ->
      World.files (snd (writeDB dirname data w)) =
      run_op (Rename (tempPath dirname) (DB_PATH dirname))
        (run_op (WriteFile (tempPath dirname) data) (World.files w))
      /\ World.files (snd (writeDB dirname data w)) !! DB_PATH dirname
         = Some (Json data))
  /\ crash (writeDB_ops dirname data) (World.files w)
       (World.files (snd (writeDB dirname data w)))
  /\ (forall fs',
        crash (writeDB_ops dirname data) (World.files w) fs' ->
        fs' !! DB_PATH dirname = World.files w !! DB_PATH dirname
        \/ fs' !! DB_PATH dirname = Some (Json data)).
Proof.
  split; [reflexivity|]. split; [apply tempPath_fresh|].
  split; [|split].
  - intros Hs. split; [by apply writeDB_files|].
    rewrite writeDB_files by done. cbn.
    rewrite lookup_insert_eq. by rewrite lookup_insert_eq.
  - apply writeDB_stops_in_crash_state.
  - intros fs'. apply crash_writeDB_ops.
Qed.

(** By contrast the first creation of the file, a plain [writeFileSync]
    on the canonical path, can be cut short with a truncated file. *)
Lemma checkDBFile_not_crash_safe (fs : gmap string (file float)) :
  exists fs',
    crash (checkDBFile_ops dirname) fs fs'
    /\ fs' !! DB_PATH dirname = Some (Partial initialDB 10).
Proof.
  eexists. split.
  - apply crash_during, during_write.
  - apply lookup_insert_eq.
Qed.




(** * Further properties of the code *)

(** ** The database file *)


(** X2. A save that fails returns [false] and is invisible to the next
    load: the canonical file, every other file but the temporary one and
    the write counter are as before.  When the failure comes after the
    temporary file was opened, that file is left behind. *)
Theorem writeDB_failure_keeps_store (data : document) (w : world) :
  save_ok w = false ->
  exists w',
    writeDB dirname data w = (Ret false, w')
    /\ readDB dirname w' = (Ret (stored dirname w), w')
    /\ World.dbChangeCount w' = World.dbChangeCount w
    /\ (forall p, p ≠ tempPath dirname ->
        World.files w' !! p = World.files w !! p)
    /\ (World.faults w 0%nat ≠ OpenFails ->
        is_Some (World.files w' !! tempPath dirname)).
Proof.
  pose proof tempPath_fresh as Hne.
  unfold save_ok. rewrite writeDB_run.
  destruct (World.faults w 0%nat) eqn:F; try discriminate; intros _;
    eexists; (split; [reflexivity|]); unfold readDB, stored; cbn;
    rewrite ?lookup_insert_ne by done.
  - split; [by destruct (World.files w !! DB_PATH dirname) as [[]|]|].
    split; [reflexivity|]. split; [done|]. intros H. by destruct H.
  - split; [by destruct (World.files w !! DB_PATH dirname) as [[]|]|].
    split; [reflexivity|]. split.
    + intros p Hp. by rewrite lookup_insert_ne.
    + intros _. rewrite lookup_insert_eq. eauto.
  - split; [by destruct (World.files w !! DB_PATH dirname) as [[]|]|].
    split; [reflexivity|]. split.
    + intros p Hp. by rewrite lookup_insert_ne.
    + intros _. rewrite lookup_insert_eq. eauto.
Qed.


(** X4. When there is no file, [checkDBFile] writes the default document
    straight to the canonical path: on success the next load returns it
    (one admin record, no users, tools, rentals or logs); a write that
    fails midway returns [false] and leaves a truncated canonical file.
    The write counter is not involved. *)
Theorem checkDBFile_creates (w : world) :
  World.files w !! DB_PATH dirname = None ->
  exists b w',
    checkDBFile dirname w = (Ret b, w')
    /\ World.dbChangeCount w' = World.dbChangeCount w
    /\ match World.faults w 0%nat with
       | OpenFails => b = false /\ World.files w' = World.files w
       | WriteFails k =>
           b = false
           /\ World.files w' !! DB_PATH dirname = Some (Partial initialDB k)
       | _ => b = true /\ readDB dirname w' = (Ret initialDB, w')
       end.
Proof.
  intros Hf.
  unfold checkDBFile, try_catch, mbind, M_bind, existsSync, next_fault,
    writeFileSync, readDB. cbn.
  rewrite Hf. rewrite bool_decide_eq_false_2 by (by intros [? ?]). cbn.
  destruct (World.faults w 0%nat); cbn; eexists _, _;
    (split; [reflexivity|]); (split; [reflexivity|]); cbn;
    rewrite ?lookup_insert_eq; done.
Qed.

(** ** The scorers *)

Lemma Qltb_lt (x y : Q) : Qltb x y = true <-> (x < y)%Q.
Proof.
  unfold Qltb. rewrite negb_true_iff, <- not_true_iff_false, Qle_bool_iff.
  split; [apply Qnot_le_lt | apply Qlt_not_le].
Qed.

Lemma Qfloor_bounds (x : Q) (a b : Z) :
  (inject_Z a <= x)%Q -> (x < inject_Z b)%Q -> a <= Qfloor x < b.
Proof.
  intros Ha Hb. split.
  - rewrite <- (Qfloor_Z a). by apply Qfloor_resp_le.
  - destruct (Z_lt_le_dec (Qfloor x) b) as [|Hge]; [done|]. exfalso.
    apply (Qlt_irrefl x). eapply Qlt_le_trans; [exact Hb|].
    eapply Qle_trans; [|apply Qfloor_le].
    rewrite <- Zle_Qle. exact Hge.
Qed.

Lemma signalScore_range (fileName : string) (fileSize : Z) :
  (0 <= signalScore fileName fileSize <= 9 # 10)%Q.
Proof.
  unfold signalScore.
  destruct (fileSize <? 50000) eqn:E1; destruct (5000000 <? fileSize) eqn:E2;
    try (apply Z.ltb_lt in E1; apply Z.ltb_lt in E2; lia);
    destruct (0 <? length _)%nat;
    destruct (String.eqb _ ".png") eqn:E3;
    destruct (String.eqb _ ".webp") eqn:E4;
    try (apply String.eqb_eq in E3; apply String.eqb_eq in E4;
         rewrite E3 in E4; discriminate);
    split; vm_compute; congruence.
Qed.

(** X5. With every [Math.random()] in [0, 1), the confidence lies between
    0 and 98, and the damage confidence between 70 and 99 when damage is
    flagged and between 0 and 19 otherwise. *)
Theorem detectAIImage_ranges (fileName : string) (fileSize : Z)
    (r1 r2 r3 r4 : Q) :
  (0 <= r1 < 1)%Q -> (0 <= r2 < 1)%Q -> (0 <= r4 < 1)%Q ->
  let res := ai_result fileName fileSize r1 r2 r3 r4 in
  0 <= AIResult.confidence res <= 98
  /\ (if AIResult.damage_detected res
      then 70 <= AIResult.damage_confidence res <= 99
      else 0 <= AIResult.damage_confidence res <= 19).
Proof.
  intros H1 H2 H4 res. unfold res, ai_result.
  cbn [AIResult.confidence AIResult.damage_detected
       AIResult.damage_confidence].
  pose proof (signalScore_range fileName fileSize) as Hs.
  split.
  - split; [|lia]. apply Z.min_glb; [lia|]. unfold Math_round, aiScore.
    rewrite <- (Qfloor_Z 0). apply Qfloor_resp_le.
    change (inject_Z 0) with 0%Q. nra.
  - destruct (Qltb r3 (2 # 10)); unfold Math_floor.
    + pose proof (Qfloor_bounds (r4 * 30) 0 30) as H.
      change (inject_Z 0) with 0%Q in H. change (inject_Z 30) with 30%Q in H.
      assert (0 <= Qfloor (r4 * 30) < 30) by (apply H; lra). lia.
    + pose proof (Qfloor_bounds (r4 * 20) 0 20) as H.
      change (inject_Z 0) with 0%Q in H. change (inject_Z 20) with 20%Q in H.
      assert (0 <= Qfloor (r4 * 20) < 20) by (apply H; lra). lia.
Qed.

Lemma Qfloor_below (x : Q) (b : Z) : (x < inject_Z b)%Q -> Qfloor x < b.
Proof.
  intros Hb. destruct (Z_lt_le_dec (Qfloor x) b) as [|Hge]; [done|].
  exfalso. apply (Qlt_irrefl x). eapply Qlt_le_trans; [exact Hb|].
  eapply Qle_trans; [|apply Qfloor_le]. rewrite <- Zle_Qle. exact Hge.
Qed.

Lemma signalScore_plain (fileName : string) (fileSize : Z) :
  50000 <= fileSize <= 5000000 ->
  Forall (fun k => includes (toLowerCase fileName) k = false) aiKeywords ->
  toLowerCase (extname fileName) ≠ ".png" ->
  toLowerCase (extname fileName) ≠ ".webp" ->
  signalScore fileName fileSize = 0%Q.
Proof.
  intros Hsize Hkw Hpng Hwebp. unfold signalScore.
  replace (fileSize <? 50000) with false by (symmetry; apply Z.ltb_ge; lia).
  replace (5000000 <? fileSize) with false
    by (symmetry; apply Z.ltb_ge; lia).
  replace (List.filter _ aiKeywords) with (@nil string).
  2: { symmetry. unfold aiKeywords in *.
       repeat match goal with
              | H : Forall _ (_ :: _) |- _ =>
                  apply Forall_cons_1 in H; destruct H as [? H]
              end.
       cbn. by repeat match goal with H : includes _ _ = false |- _ =>
                        rewrite H; clear H end. }
  cbn [length Nat.ltb Nat.leb].
  apply String.eqb_neq in Hpng, Hwebp. by rewrite Hpng, Hwebp.
Qed.

(** X6. A photograph that triggers no signal (50000 to 5000000 bytes, a
    name without any of the keywords, an extension other than .png and
    .webp) is never judged synthetic and never blocked, whatever
    [Math.random()] returns below 1; its confidence stays at 60 or less. *)
Theorem plain_photo_always_allowed (fileName : string) (fileSize : Z)
    (r1 r2 r3 r4 : Q) :
  50000 <= fileSize <= 5000000 ->
  Forall (fun k => includes (toLowerCase fileName) k = false) aiKeywords ->
  toLowerCase (extname fileName) ≠ ".png" ->
  toLowerCase (extname fileName) ≠ ".webp" ->
  (r1 < 1)%Q -> (r2 < 1)%Q ->
  let res := ai_result fileName fileSize r1 r2 r3 r4 in
  AIResult.is_ai_generated res = false
  /\ AIResult.allow_upload res = true
  /\ AIResult.confidence res <= 60.
Proof.
  intros Hsize Hkw Hpng Hwebp H1 H2 res. unfold res, ai_result.
  cbn [AIResult.confidence AIResult.is_ai_generated AIResult.allow_upload].
  unfold aiScore. rewrite (signalScore_plain _ _ Hsize Hkw Hpng Hwebp).
  assert (Qgtb (0 + r1 * (4 # 10) + r2 * (2 # 10)) (7 # 10) = false) as ->.
  { apply not_true_iff_false. rewrite Qgtb_lt. apply Qle_not_lt. lra. }
  split; [reflexivity|]. split; [reflexivity|].
  etransitivity; [apply Z.le_min_r|]. unfold Math_round.
  apply Z.lt_succ_r. apply Qfloor_below.
  change (inject_Z (Z.succ 60)) with 61%Q. lra.
Qed.

(** The size part of the similarity lies between 0 and 1 for files of
    non-negative size, and is at most 1 in any case. *)
Lemma size_ratio_range (d m : Z) :
  0 <= d -> 0 < m ->
  (1 - inject_Z d / inject_Z m <= 1)%Q
  /\ (d <= m -> (0 <= 1 - inject_Z d / inject_Z m)%Q).
Proof.
  intros Hd Hm.
  assert (0 < inject_Z m)%Q as Hm' by (change 0%Q with (inject_Z 0); by rewrite <- Zlt_Qlt).
  assert (0 <= inject_Z d)%Q as Hd' by (change 0%Q with (inject_Z 0); by rewrite <- Zle_Qle).
  split.
  - assert (0 <= inject_Z d / inject_Z m)%Q
      by (apply Qle_shift_div_l; [done|lra]).
    lra.
  - intros Hle.
    assert (inject_Z d / inject_Z m <= 1)%Q.
    { apply Qle_shift_div_r; [done|]. rewrite Qmult_1_l.
      by rewrite <- Zle_Qle. }
    lra.
Qed.

Lemma Qmin_cases (x y : Q) :
  ((x <= y)%Q /\ Qmin x y = x) \/ ((y < x)%Q /\ Qmin x y = y).
Proof.
  unfold Qmin, GenericMinMax.gmin. destruct (x ?= y)%Q eqn:E.
  - left. split; [|reflexivity]. apply Qeq_alt in E. rewrite E. apply Qle_refl.
  - left. split; [|reflexivity]. apply Qlt_alt in E. by apply Qlt_le_weak.
  - right. split; [|reflexivity]. by apply Qgt_alt in E.
Qed.

(** X7. For two files of non-negative size and [Math.random()] in
    [0, 1) the similarity score lies between 24 and 84: the cap at 0.95
    is never reached, and a comparison that passes scores 60 or more, so
    that the [score < 60] test of the return route adds nothing. *)
Theorem compare_sizes_range (size1 size2 : Z) (r : Q) :
  0 <= size1 -> 0 <= size2 -> (0 <= r < 1)%Q ->
  let c := compare_sizes size1 size2 r in
  24 <= Comparison.score c <= 84
  /\ (Comparison.similar c = true -> 60 <= Comparison.score c)
  /\ Comparison.error c = None.
Proof.
  intros H1 H2 Hr c. unfold c, compare_sizes.
  cbn [Comparison.score Comparison.similar Comparison.error].
  set (ss := if 0 <? Z.max size1 size2 then _ else _).
  assert (0 <= ss <= 1)%Q as Hss.
  { unfold ss. destruct (0 <? Z.max size1 size2) eqn:E.
    - apply Z.ltb_lt in E.
      destruct (size_ratio_range (Z.abs (size1 - size2)) (Z.max size1 size2))
        as [Hu Hl]; [lia | lia |].
      split; [apply Hl; lia | exact Hu].
    - split; vm_compute; congruence. }
  set (x := (ss * (2 # 10) + ((3 # 10) + r * (5 # 10)) * (8 # 10))%Q).
  destruct (Qmin_cases (95 # 100) x) as [[Hle ->] | [Hlt ->]].
  { exfalso. unfold x in Hle. lra. }
  unfold Math_round. split; [|split; [|reflexivity]].
  - pose proof (Qfloor_bounds (x * 100 + (1 # 2)) 24 85) as H.
    change (inject_Z 24) with 24%Q in H. change (inject_Z 85) with 85%Q in H.
    assert (24 <= Qfloor (x * 100 + (1 # 2)) < 85)
      by (apply H; unfold x; lra).
    lia.
  - intros Hs%Qgtb_lt. rewrite <- (Qfloor_Z 60). apply Qfloor_resp_le.
    change (inject_Z 60) with 60%Q. lra.
Qed.


(** ** Tools *)

Lemma id_taken_find (s : string) (db : document) :
  id_taken s db = false -> find_tool (JStr s) db = None.
Proof.
  unfold id_taken, find_tool. intros H. apply list_find_None.
  apply Forall_forall. intros t Ht Hid. cbn in Hid.
  apply not_true_iff_false in H. apply H. apply existsb_exists.
  exists t. split; [by apply list_elem_of_In | exact Hid].
Qed.

Lemma find_tool_snoc (s : string) (db : document) (t : Tool.t float) :
  find_tool (JStr s) db = None -> Tool.id t = s ->
  find_tool (JStr s) (set_tools (Document.tools db ++ [t]) db)
  = Some (length (Document.tools db), t).
Proof.
  unfold find_tool. intros Hnone Hid. cbn [Document.tools set_tools].
  rewrite list_find_app_r by exact Hnone. cbn.
  rewrite Hid. rewrite decide_True by apply String.eqb_refl. reflexivity.
Qed.

Lemma find_tool_id (id : jsval) (db : document) (i : nat) (t : Tool.t float) :
  find_tool id db = Some (i, t) -> id = JStr (Tool.id t).
Proof.
  unfold find_tool. intros (_ & H & _)%list_find_Some.
  destruct id as [|s]; [discriminate|]. cbn in H.
  apply String.eqb_eq in H. by rewrite H.
Qed.

(** Replacing the tool found by one of the same identifier: the search
    finds the replacement at the same place. *)
Lemma find_tool_insert (id : jsval) (db : document) (i : nat)
    (t t' : Tool.t float) :
  find_tool id db = Some (i, t) -> Tool.id t' = Tool.id t ->
  list_find (fun x => str_is (Tool.id x) id = true)
    (<[i := t']> (Document.tools db)) = Some (i, t').
Proof.
  unfold find_tool. intros (Hi & HP & Hmin)%list_find_Some Hid.
  apply list_find_Some. split; [|split].
  - apply list_lookup_insert_eq. by eapply lookup_lt_Some.
  - by rewrite Hid.
  - intros j y Hj Hlt. rewrite list_lookup_insert_ne in Hj by lia.
    by eapply Hmin.
Qed.

Lemma dash_lower_idempotent (c : ascii) :
  dash_char (lower_char (dash_char (lower_char c)))
  = dash_char (lower_char c).
Proof. destruct c as [[] [] [] [] [] [] [] []]; vm_compute; reflexivity. Qed.

Lemma newToolId_idempotent (name : string) :
  newToolId (newToolId name) = newToolId name.
Proof.
  rewrite !newToolId_map.
  induction name as [|c s IH]; simpl; [reflexivity|].
  by rewrite dash_lower_idempotent, IH.
Qed.

(** X9. Insert and look up: once a create request has succeeded and been
    saved, [GET /api/tools/:id] with the derived identifier returns the
    new tool, with [rented] 0 and [available] equal to [quantity]. *)
Theorem create_then_get (body : ToolBody.t) (w w' : world) (name : string)
    (t : Tool.t float) :
  ToolBody.name body = JStr name ->
  post_admin_tools parseFloat dirname body w = (Sent (toolAdded t), w') ->
  save_ok w = true ->
  get_tool dirname (newToolId name) w' = (Ret t, w')
  /\ Tool.id t = newToolId name
  /\ Tool.rented t = Int 0
  /\ Tool.available t = Tool.quantity t.
Proof.
  intros Hname Hrun Hs.
  destruct (find_tool (ToolBody.id body) (stored dirname w))
    as [[i t0]|] eqn:Hfind.
  { pose proof (post_admin_tools_update body w i t0 Hfind) as H.
    destruct (num_ltb _ _).
    - rewrite H in Hrun. discriminate.
    - destruct H as (w1 & E & _). rewrite E in Hrun. discriminate. }
  pose proof (post_admin_tools_create body w name Hfind Hname) as H.
  destruct (id_taken (newToolId name) (stored dirname w)) eqn:Ht.
  { rewrite H in Hrun. discriminate. }
  destruct H as (w1 & E & Hst). rewrite E in Hrun.
  injection Hrun as <- <-. rewrite Hs in Hst.
  split; [|by repeat split].
  unfold get_tool. rewrite (bind_run _ _ _ _ _ (readDB_run w1)), Hst.
  rewrite find_tool_snoc; [reflexivity | by apply id_taken_find | reflexivity].
Qed.

(** X10. Identifiers are fixed points of the derivation, and once a
    create request has succeeded and been saved, every create request
    whose name derives the same identifier (the same name again, another
    capitalisation, other punctuation, the identifier itself) is answered
    400 "Tool name already exists." and changes nothing. *)
Theorem create_again_is_duplicate (body body' : ToolBody.t) (w w' : world)
    (name name' : string) (t : Tool.t float) :
  ToolBody.name body = JStr name ->
  post_admin_tools parseFloat dirname body w = (Sent (toolAdded t), w') ->
  save_ok w = true ->
  ToolBody.name body' = JStr name' ->
  newToolId name' = newToolId name ->
  find_tool (ToolBody.id body') (stored dirname w') = None ->
  post_admin_tools parseFloat dirname body' w' = (Sent DuplicateTool, w')
  /\ newToolId (newToolId name) = newToolId name.
Proof.
  intros Hname Hrun Hs Hname' Hsame Hfind'.
  split; [|apply newToolId_idempotent].
  destruct (find_tool (ToolBody.id body) (stored dirname w))
    as [[i t0]|] eqn:Hfind.
  { pose proof (post_admin_tools_update body w i t0 Hfind) as H.
    destruct (num_ltb _ _).
    - rewrite H in Hrun. discriminate.
    - destruct H as (w1 & E & _). rewrite E in Hrun. discriminate. }
  pose proof (post_admin_tools_create body w name Hfind Hname) as H.
  destruct (id_taken (newToolId name) (stored dirname w)) eqn:Ht.
  { rewrite H in Hrun. discriminate. }
  destruct H as (w1 & E & Hst). rewrite E in Hrun.
  injection Hrun as <- <-. rewrite Hs in Hst.
  pose proof (post_admin_tools_create body' w1 name' Hfind' Hname') as H'.
  assert (id_taken (newToolId name') (stored dirname w1) = true) as Hdup.
  { apply id_taken_spec. exists (newTool parseFloat body name).
    rewrite Hst. cbn. split; [|by rewrite Hsame].
    apply elem_of_app. right. by apply list_elem_of_singleton. }
  by rewrite Hdup in H'.
Qed.

(** X11. The tools route throws only in one case, a create request
    without a string name; nothing is saved then.  In every other case it
    answers. *)
Theorem post_admin_tools_throws (body : ToolBody.t) (w w' : world)
    (o : outcome float (Response.t float)) :
  post_admin_tools parseFloat dirname body w = (o, w') ->
  match o with
  | Thrown e =>
      find_tool (ToolBody.id body) (stored dirname w) = None
      /\ ToolBody.name body = JUndefined /\ w' = w
  | Sent r =>
      is_Some (find_tool (ToolBody.id body) (stored dirname w))
      \/ exists name, ToolBody.name body = JStr name
  | Ret _ => False
  end.
Proof.
  intros Hrun.
  destruct (find_tool (ToolBody.id body) (stored dirname w))
    as [[i t0]|] eqn:Hfind.
  { pose proof (post_admin_tools_update body w i t0 Hfind) as H.
    destruct (num_ltb _ _).
    - rewrite H in Hrun. injection Hrun as <- <-. left. eauto.
    - destruct H as (w1 & E & _). rewrite E in Hrun.
      injection Hrun as <- <-. left. eauto. }
  destruct (ToolBody.name body) as [|name] eqn:Hname.
  { unfold post_admin_tools in Hrun.
    rewrite (bind_run _ _ _ _ _ (readDB_run w)), Hfind, Hname in Hrun.
    by injection Hrun as <- <-. }
  pose proof (post_admin_tools_create body w name Hfind Hname) as H.
  destruct (id_taken _ _).
  - rewrite H in Hrun. injection Hrun as <- <-. right. eauto.
  - destruct H as (w1 & E & _). rewrite E in Hrun.
    injection Hrun as <- <-. right. eauto.
Qed.

(** X12. An update that goes through and is saved keeps the identifier,
    the place in the list and [rented]; it sets [quantity] to the parsed
    value and [available] to [quantity - rented]; it overwrites the
    reference image with the field of the body even when that is absent,
    while description and specs fall back to the stored ones; no other
    tool, rental or log changes.  An update below [rented] changes
    nothing. *)
Theorem update_tool_effect (body : ToolBody.t) (w w' : world) (i : nat)
    (t : Tool.t float) (o : outcome float (Response.t float)) :
  find_tool (ToolBody.id body) (stored dirname w) = Some (i, t) ->
  post_admin_tools parseFloat dirname body w = (o, w') ->
  if num_ltb (parseInt (ToolBody.quantity body)) (Tool.rented t)
  then o = Sent (QuantityBelowRented (Tool.rented t)) /\ w' = w
  else
    exists t',
      o = Sent (toolUpdated t')
      /\ Tool.id t' = Tool.id t
      /\ Tool.rented t' = Tool.rented t
      /\ Tool.quantity t' = parseInt (ToolBody.quantity body)
      /\ Tool.available t' = num_sub (Tool.quantity t') (Tool.rented t)
      /\ Tool.beforeImage t' = ToolBody.beforeImage body
      /\ (truthy (ToolBody.description body) = false ->
          Tool.description t' = Tool.description t)
      /\ (save_ok w = true ->
          Document.tools (stored dirname w')
            = <[i := t']> (Document.tools (stored dirname w))
          /\ Document.rentals (stored dirname w')
             = Document.rentals (stored dirname w)
          /\ Document.logs (stored dirname w')
             = Document.logs (stored dirname w)).
Proof.
  intros Hfind Hrun.
  pose proof (post_admin_tools_update body w i t Hfind) as H.
  destruct (num_ltb _ _).
  - rewrite H in Hrun. by injection Hrun as <- <-.
  - destruct H as (w1 & E & Hst). rewrite E in Hrun.
    injection Hrun as <- <-.
    exists (updatedTool parseFloat body t).
    repeat (split; [reflexivity|]). split.
    + intros Hd. unfold updatedTool, js_or. cbn. by rewrite Hd.
    + intros Hs. rewrite Hst, Hs. by repeat split.
Qed.

Lemma without_tool_length (toolId : string) (ts : list (Tool.t float)) :
  (length (without_tool toolId ts) <? length ts)%nat
  = existsb (fun t => String.eqb (Tool.id t) toolId) ts.
Proof.
  unfold without_tool.
  assert (forall l : list (Tool.t float),
             (length (List.filter
                        (fun t => negb (String.eqb (Tool.id t) toolId)) l)
              <= length l)%nat) as Hle.
  { induction l as [|x l IH]; simpl; [lia|]. destruct (negb _); simpl; lia. }
  induction ts as [|x l IH]; simpl; [reflexivity|].
  destruct (String.eqb (Tool.id x) toolId); simpl.
  - apply Nat.ltb_lt. specialize (Hle l). lia.
  - rewrite <- IH. reflexivity.
Qed.

Lemma without_tool_elem (toolId : string) (ts : list (Tool.t float))
    (t : Tool.t float) :
  t ∈ without_tool toolId ts <-> t ∈ ts /\ Tool.id t ≠ toolId.
Proof.
  unfold without_tool. rewrite !list_elem_of_In, filter_In.
  rewrite negb_true_iff, String.eqb_neq. reflexivity.
Qed.

Lemma find_tool_without (toolId : string) (db : document) :
  find_tool (JStr toolId)
    (set_tools (without_tool toolId (Document.tools db)) db) = None.
Proof.
  unfold find_tool. apply list_find_None, Forall_forall.
  intros t [_ Hne]%without_tool_elem Hid. cbn in Hid.
  by apply String.eqb_eq in Hid.
Qed.

Lemma delete_admin_tools_run (toolId : string) (w : world) :
  if id_taken toolId (stored dirname w) then
    exists w',
      delete_admin_tools dirname toolId w = (Sent ToolDeleted, w')
      /\ stored dirname w' =
         (if save_ok w
          then set_tools
                 (without_tool toolId (Document.tools (stored dirname w)))
                 (stored dirname w)
          else stored dirname w)
  else delete_admin_tools dirname toolId w = (Sent DeleteNotFound, w).
Proof.
  unfold delete_admin_tools.
  rewrite (bind_run _ _ _ _ _ (readDB_run w)).
  rewrite without_tool_length. unfold id_taken.
  destruct (existsb _ _); [|reflexivity].
  match goal with
  | |- context [(writeDB _ ?d ≫= _) ?x] =>
      destruct (writeDB_result d x) as (w' & E & Hst & _)
  end.
  rewrite (bind_run _ _ _ _ _ E). eauto.
Qed.

(** X13. Deleting a tool: when a tool has the identifier, the answer is
    success and the saved list holds exactly the tools of other
    identifiers (every tool with that identifier goes), while users,
    rentals and logs stay as they are, the rentals of the tool
    included; when none has it, the answer is 404 and nothing changes. *)
Theorem delete_tool_effect (toolId : string) (w w' : world)
    (o : outcome float (Response.t float)) :
  delete_admin_tools dirname toolId w = (o, w') ->
  if id_taken toolId (stored dirname w) then
    o = Sent ToolDeleted
    /\ (save_ok w = true ->
        (forall t, t ∈ Document.tools (stored dirname w') <->
                   t ∈ Document.tools (stored dirname w)
                   /\ Tool.id t ≠ toolId)
        /\ Document.rentals (stored dirname w')
           = Document.rentals (stored dirname w)
        /\ Document.logs (stored dirname w')
           = Document.logs (stored dirname w)
        /\ Document.users (stored dirname w')
           = Document.users (stored dirname w))
  else o = Sent DeleteNotFound /\ w' = w.
Proof.
  intros Hrun. pose proof (delete_admin_tools_run toolId w) as H.
  destruct (id_taken _ _).
  - destruct H as (w1 & E & Hst). rewrite E in Hrun.
    injection Hrun as <- <-. split; [reflexivity|].
    intros Hs. rewrite Hst, Hs. cbn.
    split; [apply without_tool_elem | by repeat split].
  - rewrite H in Hrun. by injection Hrun as <- <-.
Qed.

Lemma get_user_rentals_run (userId : string) (w : world) :
  get_user_rentals dirname userId w =
  (Ret (map (rental_view (stored dirname w))
          (List.filter
             (fun r => num_eqb (Rental.userId r) (parseInt (JStr userId)))
             (Document.rentals (stored dirname w)))), w).
Proof.
  unfold get_user_rentals.
  by rewrite (bind_run _ _ _ _ _ (readDB_run w)).
Qed.

(** X14. After a tool has been deleted and the document saved, a rent
    request for its identifier is turned down, [GET /api/tools/:id]
    answers 404, and the rentals route still lists the rentals of that
    tool, each under the name "Unknown Tool" with an empty image. *)
Theorem after_delete (toolId : string) (w w' : world) :
  delete_admin_tools dirname toolId w = (Sent ToolDeleted, w') ->
  save_ok w = true ->
  (forall body, RentBody.toolId body = JStr toolId ->
     post_rent parseFloat dirname body w' = (Sent ToolUnavailable, w'))
  /\ get_tool dirname toolId w' = (Sent (json 404 false "Tool not found"), w')
  /\ (forall userId,
        exists views,
          get_user_rentals dirname userId w' = (Ret views, w')
          /\ map RentalView.rental views =
             List.filter
               (fun r => num_eqb (Rental.userId r) (parseInt (JStr userId)))
               (Document.rentals (stored dirname w))
          /\ (forall v, v ∈ views ->
                Rental.toolId (RentalView.rental v) = JStr toolId ->
                RentalView.toolName v = JStr "Unknown Tool"
                /\ RentalView.toolImage v = "")).
Proof.
  intros Hrun Hs. pose proof (delete_admin_tools_run toolId w) as H.
  destruct (id_taken _ _); [|rewrite H in Hrun; discriminate].
  destruct H as (w1 & E & Hst). rewrite E in Hrun.
  injection Hrun as <-. rewrite Hs in Hst.
  assert (find_tool (JStr toolId) (stored dirname w1) = None) as Hnone
    by (rewrite Hst; apply find_tool_without).
  split; [|split].
  - intros body Hid. apply post_rent_refused. by rewrite Hid, Hnone.
  - unfold get_tool.
    by rewrite (bind_run _ _ _ _ _ (readDB_run w1)), Hnone.
  - intros userId. eexists. split; [apply get_user_rentals_run|].
    assert (Document.rentals (stored dirname w1)
            = Document.rentals (stored dirname w)) as ->
      by (by rewrite Hst).
    split.
    + generalize (List.filter
                    (fun r => num_eqb (Rental.userId r)
                                (parseInt (JStr userId)))
                    (Document.rentals (stored dirname w))).
      intros l. induction l as [|r l IH]; simpl; [reflexivity|].
      rewrite IH. f_equal. unfold rental_view.
      destruct (find_tool (Rental.toolId r) _) as [[? ?]|]; reflexivity.
    + intros v Hv Htool.
      apply list_elem_of_In, in_map_iff in Hv.
      destruct Hv as (r & <- & _). unfold rental_view.
      assert (Rental.toolId r = JStr toolId) as Hr.
      { revert Htool. unfold rental_view.
        destruct (find_tool (Rental.toolId r) _) as [[? ?]|]; cbn; auto. }
      by rewrite Hr, Hnone.
Qed.

(** X15. A user identifier that does not read as a number matches no
    rental: the rentals route answers with the empty list. *)
Theorem user_rentals_of_non_number (userId : string) (w : world) :
  parseInt (JStr userId) = NaN ->
  get_user_rentals dirname userId w = (Ret [], w).
Proof.
  intros Hnan. rewrite get_user_rentals_run, Hnan.
  replace (List.filter _ _) with (@nil (Rental.t float)); [reflexivity|].
  symmetry. induction (Document.rentals (stored dirname w)) as [|r l IH];
    simpl; [reflexivity|].
  by destruct (Rental.userId r).
Qed.

(** ** Renting and returning *)

(** X16. A rent request for a tool in stock, once saved: the tool at the
    place where it was found has [available] one lower and [rented] one
    higher, [quantity] as before; exactly one rental is appended, with
    status [RENTED], the fresh identifier and the [toolId] of the body;
    the logs do not change. *)
Theorem rent_effect (body : RentBody.t) (w : world) (i : nat)
    (t : Tool.t float) (a r : Z) :
  find_tool (RentBody.toolId body) (stored dirname w) = Some (i, t) ->
  Tool.available t = Int a -> 0 < a -> Tool.rented t = Int r ->
  save_ok w = true ->
  exists w' t' rental,
    post_rent parseFloat dirname body w = (Sent (rented_out rental), w')
    /\ Document.tools (stored dirname w')
       = <[i := t']> (Document.tools (stored dirname w))
    /\ Tool.available t' = Int (a - 1)
    /\ Tool.rented t' = Int (r + 1)
    /\ Tool.quantity t' = Tool.quantity t
    /\ Tool.id t' = Tool.id t
    /\ Document.rentals (stored dirname w')
       = (Document.rentals (stored dirname w) ++ [rental])%list
    /\ Rental.status rental = RENTED
    /\ Rental.rentalId rental = World.uuids w 0%nat
    /\ Rental.toolId rental = RentBody.toolId body
    /\ Document.logs (stored dirname w') = Document.logs (stored dirname w).
Proof.
  intros Hfind Ha Hpos Hr Hs.
  assert (num_leb (Tool.available t) (Int 0) = false) as Hav
    by (rewrite Ha; cbn; apply Z.leb_gt; lia).
  destruct (post_rent_run body w i t Hfind Hav) as (w' & E & Hst).
  rewrite Hs in Hst. exists w', (rent_out t). eexists.
  split; [exact E|]. rewrite Hst. cbn.
  rewrite Ha, Hr. by repeat split.
Qed.

(** The run of [post_return_check_commit], with what happens to the
    files. *)
Lemma post_return_check_commit_files (body : ReturnBody.t) (up : Upload.t)
    (w w2 : world) (ti ri : nat) (t : Tool.t float) (r : Rental.t float)
    (c : Comparison.t) :
  find_tool (ReturnBody.toolId body) (stored dirname w) = Some (ti, t) ->
  let ai := ai_result (Upload.originalname up) (Upload.size up)
              (World.random w 0%nat) (World.random w 1%nat)
              (World.random w 2%nat) (World.random w 3%nat) in
  AIResult.allow_upload ai = true ->
  image_comparison stringify_length dirname t up (skip_random 4 w)
    = (Ret c, w2) ->
  find_rental (ReturnBody.rentalId body) (stored dirname w) = Some (ri, r) ->
  exists w' score,
    post_return_check stringify_length dirname body (Some up) w
      = (Sent (returned (AIResult.confidence ai)), w')
    /\ stored dirname w' =
       (if save_ok w
        then with_return (stored dirname w) ti ri t r (World.dates w 0%nat)
               (Upload.filename up)
               (logEntry (stored dirname w) body up t r ai c score
                  (World.dates w 1%nat))
        else stored dirname w)
    /\ (forall p, p ≠ DB_PATH dirname -> p ≠ tempPath dirname ->
        World.files w' !! p = World.files w !! p).
Proof.
  intros Hfind ai Hallow Hcmp Hrental.
  destruct (image_comparison_ret _ _ _ _ _ Hcmp)
    as (Hfiles & Hdates & Hfaults & Hcount).
  cbn in Hfiles, Hdates, Hfaults, Hcount.
  unfold post_return_check.
  rewrite (bind_run _ _ _ _ _ (readDB_run w)), Hfind.
  unfold try_catch.
  rewrite (bind_run _ _ _ _ _ (detectAIImage_run _ _ _ w)).
  fold ai. rewrite Hallow. cbn [negb].
  rewrite (bind_run _ _ _ _ _ Hcmp), Hrental.
  rewrite bind_new_Date.
  unfold damageScore.
  destruct (AIResult.damage_detected ai).
  - rewrite bind_mret, bind_new_Date.
    match goal with
    | |- context [(writeDB _ ?d ≫= _) ?x] =>
        destruct (writeDB_result d x) as (w' & E & Hst & _ & _ & Hp & _)
    end.
    rewrite (bind_run _ _ _ _ _ E). exists w'. eexists.
    unfold save_ok, stored in *. cbn in *.
    rewrite Hfiles, Hdates, Hfaults in *.
    split; [reflexivity|]. split; [exact Hst | exact Hp].
  - rewrite bind_bind, bind_Math_random, bind_mret, bind_new_Date.
    match goal with
    | |- context [(writeDB _ ?d ≫= _) ?x] =>
        destruct (writeDB_result d x) as (w' & E & Hst & _ & _ & Hp & _)
    end.
    rewrite (bind_run _ _ _ _ _ E). exists w'. eexists.
    unfold save_ok, stored in *. cbn in *.
    rewrite Hfiles, Hdates, Hfaults in *.
    split; [reflexivity|]. split; [exact Hst | exact Hp].
Qed.

(** X17. A return that passes both gates for an existing rental, once
    saved: the rental at the place where it was found has status
    [RETURNED], the return date and the name of the uploaded file, its
    other fields as before; exactly one log entry is appended, with the
    next identifier, action [AUTO_RESOLVED], the score of the comparison
    and the name of the uploaded file; and the uploaded file is still on
    disk. *)
Theorem return_effect (body : ReturnBody.t) (up : Upload.t)
    (w w2 : world) (ti ri : nat) (t : Tool.t float) (r : Rental.t float)
    (c : Comparison.t) :
  find_tool (ReturnBody.toolId body) (stored dirname w) = Some (ti, t) ->
  AIResult.allow_upload
    (ai_result (Upload.originalname up) (Upload.size up)
       (World.random w 0%nat) (World.random w 1%nat)
       (World.random w 2%nat) (World.random w 3%nat)) = true ->
  image_comparison stringify_length dirname t up (skip_random 4 w)
    = (Ret c, w2) ->
  find_rental (ReturnBody.rentalId body) (stored dirname w) = Some (ri, r) ->
  save_ok w = true ->
  Upload.path up ≠ DB_PATH dirname -> Upload.path up ≠ tempPath dirname ->
  exists w' resp r' l,
    post_return_check stringify_length dirname body (Some up) w
      = (Sent resp, w')
    /\ Response.success resp = true
    /\ Document.rentals (stored dirname w')
       = <[ri := r']> (Document.rentals (stored dirname w))
    /\ Rental.status r' = RETURNED
    /\ Rental.returnDate r' = Some (World.dates w 0%nat)
    /\ Rental.afterImage r' = Some (Upload.filename up)
    /\ Rental.rentalId r' = Rental.rentalId r
    /\ Rental.totalPrice r' = Rental.totalPrice r
    /\ Document.logs (stored dirname w')
       = (Document.logs (stored dirname w) ++ [l])%list
    /\ Log.id l = newLogId (Document.logs (stored dirname w))
    /\ Log.action l = AUTO_RESOLVED
    /\ Log.imageSimilarity l = Comparison.score c
    /\ Log.afterImage l = Upload.filename up
    /\ World.files w' !! Upload.path up = World.files w !! Upload.path up.
Proof.
  intros Hfind Hallow Hcmp Hrental Hs Hp1 Hp2.
  destruct (post_return_check_commit_files body up w w2 ti ri t r c
              Hfind Hallow Hcmp Hrental) as (w' & score & Hrun & Hst & Hf).
  rewrite Hs in Hst. exists w'. eexists _, _, _.
  split; [exact Hrun|]. split; [reflexivity|].
  rewrite Hst. cbn. repeat (split; [reflexivity|]). by apply Hf.
Qed.




(** X19. Which rejections of the return route remove the upload.  An
    unknown tool is answered 400 "Tool not found." with nothing changed:
    the uploaded file stays on disk.  An image the authenticity gate
    blocks, and a rental that does not exist once both gates are passed,
    are answered (400 and 404) with the uploaded file deleted and the
    stored document as it was. *)
Theorem return_rejections (body : ReturnBody.t) (up : Upload.t) (w : world)
    (f : file float) :
  World.files w !! Upload.path up = Some f ->
  Upload.path up ≠ DB_PATH dirname ->
  let run := post_return_check stringify_length dirname body (Some up) w in
  let ai := ai_result (Upload.originalname up) (Upload.size up)
              (World.random w 0%nat) (World.random w 1%nat)
              (World.random w 2%nat) (World.random w 3%nat) in
  let removed (resp : Response.t float) :=
    exists w',
      run = (Sent resp, w')
      /\ World.files w' = delete (Upload.path up) (World.files w)
      /\ stored dirname w' = stored dirname w in
  (find_tool (ReturnBody.toolId body) (stored dirname w) = None ->
   run = (Sent ToolNotFound, w))
  /\ (forall ti t,
        find_tool (ReturnBody.toolId body) (stored dirname w) = Some (ti, t) ->
        AIResult.allow_upload ai = false ->
        removed SyntheticImageRejected)
  /\ (forall ti t c w2,
        find_tool (ReturnBody.toolId body) (stored dirname w) = Some (ti, t) ->
        AIResult.allow_upload ai = true ->
        image_comparison stringify_length dirname t up (skip_random 4 w)
          = (Ret c, w2) ->
        find_rental (ReturnBody.rentalId body) (stored dirname w) = None ->
        removed RentalNotFound).
Proof.
  intros Hup Hne run ai removed. split; [|split].
  - intros Hfind. unfold run, post_return_check.
    by rewrite (bind_run _ _ _ _ _ (readDB_run w)), Hfind.
  - intros ti t Hfind Hallow. unfold removed, run, post_return_check.
    rewrite (bind_run _ _ _ _ _ (readDB_run w)), Hfind.
    unfold try_catch.
    rewrite (bind_run _ _ _ _ _ (detectAIImage_run _ _ _ w)).
    fold ai. rewrite Hallow. cbn [negb].
    unfold mbind, M_bind, unlinkSync, send. cbn. rewrite Hup.
    eexists. split; [reflexivity|]. split; [reflexivity|].
    apply (stored_delete (skip_random 4 w) _ Hne).
  - intros ti t c w2 Hfind Hallow Hcmp Hrental.
    destruct (image_comparison_ret _ _ _ _ _ Hcmp) as (Hfiles & _).
    cbn in Hfiles.
    unfold removed, run, post_return_check.
    rewrite (bind_run _ _ _ _ _ (readDB_run w)), Hfind.
    unfold try_catch.
    rewrite (bind_run _ _ _ _ _ (detectAIImage_run _ _ _ w)).
    fold ai. rewrite Hallow. cbn [negb].
    rewrite (bind_run _ _ _ _ _ Hcmp), Hrental.
    assert (World.files w2 !! Upload.path up = Some f) as Hup2
      by (by rewrite Hfiles).
    unfold mbind, M_bind, unlinkSync, send. cbn. rewrite Hup2.
    eexists. split; [reflexivity|]. cbn. split; [by rewrite Hfiles|].
    unfold stored. cbn. by rewrite lookup_delete_ne, Hfiles.
Qed.

Lemma fold_num_max_Int (l : list num) (z : Z) :
  Forall (fun x => x ≠ NaN) l ->
  exists m, fold_left num_max l (Int z) = Int m
            /\ z <= m
            /\ Forall (fun x => forall y, x = Int y -> y <= m) l.
Proof.
  revert z. induction l as [|x l IH]; intros z Hl; simpl.
  - exists z. split; [reflexivity|]. split; [lia | constructor].
  - apply Forall_cons_1 in Hl. destruct Hl as [Hx Hl].
    destruct x as [|y]; [done|]. simpl.
    destruct (IH (Z.max z y) Hl) as (m & -> & Hm & Hall).
    exists m. split; [reflexivity|]. split; [lia|].
    constructor; [intros ? [= <-]; lia | exact Hall].
Qed.

(** The next log identifier lies above every identifier in use. *)
Lemma newLogId_above (logs : list Log.t) :
  Forall (fun l => Log.id l ≠ NaN) logs ->
  exists m, newLogId logs = Int m
            /\ Forall (fun l => forall y, Log.id l = Int y -> y < m) logs.
Proof.
  intros Hl. unfold newLogId, num_max_list.
  destruct logs as [|l0 logs]; simpl.
  - exists 1. split; [reflexivity | constructor].
  - apply Forall_cons_1 in Hl. destruct Hl as [H0 Hl].
    destruct (Log.id l0) as [|z0] eqn:E0; [done|].
    destruct (fold_num_max_Int (map Log.id logs) z0) as (m & -> & Hm & Hall).
    { apply Forall_fmap. eapply Forall_impl; [exact Hl|]. by intros l. }
    exists (m + 1). split; [reflexivity|]. constructor.
    + rewrite E0. intros y [= <-]. lia.
    + apply Forall_fmap in Hall. eapply Forall_impl; [exact Hall|].
      intros l H y Hy. specialize (H y Hy). lia.
Qed.

(** X20. Log identifiers stay numbers and stay distinct: when the stored
    logs have pairwise different identifiers, none of them [NaN], the
    same holds after a return that passes both gates for an existing
    rental, whether or not the save goes through; the new entry gets an
    identifier above all the others. *)
Theorem return_keeps_log_ids (body : ReturnBody.t) (up : Upload.t)
    (w w2 : world) (ti ri : nat) (t : Tool.t float) (r : Rental.t float)
    (c : Comparison.t) :
  find_tool (ReturnBody.toolId body) (stored dirname w) = Some (ti, t) ->
  AIResult.allow_upload
    (ai_result (Upload.originalname up) (Upload.size up)
       (World.random w 0%nat) (World.random w 1%nat)
       (World.random w 2%nat) (World.random w 3%nat)) = true ->
  image_comparison stringify_length dirname t up (skip_random 4 w)
    = (Ret c, w2) ->
  find_rental (ReturnBody.rentalId body) (stored dirname w) = Some (ri, r) ->
  NoDup (Log.id <$> Document.logs (stored dirname w)) ->
  Forall (fun l => Log.id l ≠ NaN) (Document.logs (stored dirname w)) ->
  exists w' resp m,
    post_return_check stringify_length dirname body (Some up) w
      = (Sent resp, w')
    /\ newLogId (Document.logs (stored dirname w)) = Int m
    /\ Forall (fun l => forall y, Log.id l = Int y -> y < m)
         (Document.logs (stored dirname w))
    /\ NoDup (Log.id <$> Document.logs (stored dirname w'))
    /\ Forall (fun l => Log.id l ≠ NaN) (Document.logs (stored dirname w')).
Proof.
  intros Hfind Hallow Hcmp Hrental Hnd Hnum.
  destruct (post_return_check_commit body up w w2 ti ri t r c
              Hfind Hallow Hcmp Hrental) as (w' & score & Hrun & Hst & _).
  destruct (newLogId_above _ Hnum) as (m & Hm & Habove).
  exists w'. eexists _, m. split; [exact Hrun|]. split; [exact Hm|].
  split; [exact Habove|]. rewrite Hst.
  destruct (save_ok w); [|by split]. cbn. split.
  - rewrite fmap_app. apply NoDup_app. split; [exact Hnd|]. split.
    + intros x Hx Hx'. cbn in Hx'. apply list_elem_of_singleton in Hx'.
      rewrite Hm in Hx'. subst x.
      apply list_elem_of_fmap in Hx. destruct Hx as (l & Hl & Hin).
      rewrite Forall_forall in Habove.
      specialize (Habove l Hin m (eq_sym Hl)). lia.
    + cbn. apply NoDup_singleton.
  - apply Forall_app. split; [exact Hnum|]. constructor; [|constructor].
    cbn. by rewrite Hm.
Qed.

Lemma take_back_rent_out (t : Tool.t float) (a r : Z) :
  Tool.available t = Int a -> Tool.rented t = Int r -> 0 <= r ->
  take_back (rent_out t) = t.
Proof.
  destruct t as [id name bi price q r0 a0 d s]. cbn. intros -> -> Hr.
  unfold take_back, rent_out, set_counts. cbn.
  by replace (Z.max 0 (r + 1 - 1)) with r by lia;
     replace (a - 1 + 1) with a by lia.
Qed.

(** X21. Renting and returning compose to the identity on the counts:
    after a saved rent of a tool in stock, a saved return for the same
    tool that passes both gates leaves the list of tools exactly as it
    was before the rent. *)
Theorem rent_then_return_restores (rb : RentBody.t) (body : ReturnBody.t)
    (up : Upload.t) (w w1 w2 : world) (i ri : nat) (t : Tool.t float)
    (rr : Rental.t float) (c : Comparison.t) (a r : Z)
    (o1 : outcome float (Response.t float)) :
  find_tool (RentBody.toolId rb) (stored dirname w) = Some (i, t) ->
  Tool.available t = Int a -> 0 < a -> Tool.rented t = Int r -> 0 <= r ->
  save_ok w = true ->
  post_rent parseFloat dirname rb w = (o1, w1) ->
  ReturnBody.toolId body = RentBody.toolId rb ->
  AIResult.allow_upload
    (ai_result (Upload.originalname up) (Upload.size up)
       (World.random w1 0%nat) (World.random w1 1%nat)
       (World.random w1 2%nat) (World.random w1 3%nat)) = true ->
  image_comparison stringify_length dirname (rent_out t) up
    (skip_random 4 w1) = (Ret c, w2) ->
  find_rental (ReturnBody.rentalId body) (stored dirname w1)
    = Some (ri, rr) ->
  save_ok w1 = true ->
  exists w3 resp,
    post_return_check stringify_length dirname body (Some up) w1
      = (Sent resp, w3)
    /\ Response.success resp = true
    /\ Document.tools (stored dirname w3) = Document.tools (stored dirname w).
Proof.
  intros Hfind Ha Hpos Hr Hr0 Hs Hrent Hsame Hallow Hcmp Hrental Hs1.
  assert (num_leb (Tool.available t) (Int 0) = false) as Hav
    by (rewrite Ha; cbn; apply Z.leb_gt; lia).
  destruct (post_rent_run rb w i t Hfind Hav) as (w' & E & Hst).
  rewrite E in Hrent. injection Hrent as _ <-. rewrite Hs in Hst.
  assert (find_tool (ReturnBody.toolId body) (stored dirname w')
          = Some (i, rent_out t)) as Hfind1.
  { rewrite Hsame, Hst. unfold find_tool, with_rental. cbn.
    by apply (find_tool_insert _ _ _ t). }
  destruct (post_return_check_commit body up w' w2 i ri (rent_out t) rr c
              Hfind1 Hallow Hcmp Hrental) as (w3 & score & Hrun & Hst3 & _).
  rewrite Hs1 in Hst3. exists w3. eexists. split; [exact Hrun|].
  split; [reflexivity|]. rewrite Hst3, Hst. cbn.
  rewrite list_insert_insert_eq, (take_back_rent_out t a r) by done.
  apply list_insert_id. by eapply find_tool_lookup.
Qed.

(** ** Audit resolution *)

Lemma list_find_insert_same {A} (P : A -> Prop) `{forall x, Decision (P x)}
    (l : list A) (i : nat) (x y : A) :
  list_find P l = Some (i, y) -> P x ->
  list_find P (<[i := x]> l) = Some (i, x).
Proof.
  intros (Hi & HP & Hmin)%list_find_Some Hx.
  apply list_find_Some. split; [|split].
  - apply list_lookup_insert_eq. by eapply lookup_lt_Some.
  - exact Hx.
  - intros j z Hj Hlt. rewrite list_lookup_insert_ne in Hj by lia.
    by eapply Hmin.
Qed.

Lemma post_admin_logs_action_run (body : ActionBody.t) (w : world)
    (li : nat) (l : Log.t) :
  find_log (ActionBody.logId body) (stored dirname w) = Some (li, l) ->
  let logs' := <[li := set_action RESOLVED l]>
                 (Document.logs (stored dirname w)) in
  exists w',
    match find_tool (Log.toolId l) (stored dirname w) with
    | Some (ti, t) =>
        post_admin_logs_action dirname body w
          = (Sent (resolved (ActionBody.logId body)), w')
        /\ stored dirname w' =
           (if save_ok w
            then set_logs logs'
                   (set_tools
                      (<[ti := apply_action (ActionBody.action body) t]>
                         (Document.tools (stored dirname w)))
                      (stored dirname w))
            else stored dirname w)
    | None =>
        post_admin_logs_action dirname body w = (Sent LogToolNotFound, w')
        /\ stored dirname w' =
           (if save_ok w then set_logs logs' (stored dirname w)
            else stored dirname w)
    end.
Proof.
  intros Hlog logs'. unfold post_admin_logs_action.
  rewrite (bind_run _ _ _ _ _ (readDB_run w)).
  unfold find_log in Hlog. rewrite Hlog.
  destruct (find_tool _ _) as [[ti t]|].
  - match goal with
    | |- context [(writeDB _ ?d ≫= _) ?x] =>
        destruct (writeDB_result d x) as (w' & E & Hst & _)
    end.
    rewrite (bind_run _ _ _ _ _ E). eauto.
  - match goal with
    | |- context [(writeDB _ ?d ≫= _) ?x] =>
        destruct (writeDB_result d x) as (w' & E & Hst & _)
    end.
    rewrite (bind_run _ _ _ _ _ E). eauto.
Qed.

(** X22. Resolving a log that exists, once saved: the entry at the place
    where it was found gets action [RESOLVED], whatever its action was,
    and keeps its other fields; rentals are untouched.  When the tool of
    the log exists the answer is success and the action is applied to the
    tool; when it is gone the answer is 404 "Tool not found." and the log
    is marked all the same, the tools staying as they are. *)
Theorem audit_resolution_effect (body : ActionBody.t) (w : world)
    (li : nat) (l : Log.t) :
  find_log (ActionBody.logId body) (stored dirname w) = Some (li, l) ->
  save_ok w = true ->
  exists w' resp l',
    post_admin_logs_action dirname body w = (Sent resp, w')
    /\ Document.logs (stored dirname w')
       = <[li := l']> (Document.logs (stored dirname w))
    /\ Log.action l' = RESOLVED
    /\ Log.id l' = Log.id l
    /\ Log.toolId l' = Log.toolId l
    /\ Log.rentalId l' = Log.rentalId l
    /\ Document.rentals (stored dirname w')
       = Document.rentals (stored dirname w)
    /\ match find_tool (Log.toolId l) (stored dirname w) with
       | Some (ti, t) =>
           resp = resolved (ActionBody.logId body)
           /\ Document.tools (stored dirname w')
              = <[ti := apply_action (ActionBody.action body) t]>
                  (Document.tools (stored dirname w))
       | None =>
           resp = LogToolNotFound
           /\ Document.tools (stored dirname w')
              = Document.tools (stored dirname w)
       end.
Proof.
  intros Hlog Hs.
  destruct (post_admin_logs_action_run body w li l Hlog) as (w' & H).
  exists w'. destruct (find_tool _ _) as [[ti t]|];
    destruct H as (E & Hst); rewrite Hs in Hst;
    eexists _, (set_action RESOLVED l); (split; [exact E|]);
    rewrite Hst; cbn; by repeat split.
Qed.

Lemma apply_action_repaired (t : Tool.t float) :
  apply_action (JStr "Repaired") t
  = set_counts (Tool.quantity t) (Tool.rented t)
      (num_add (Tool.available t) (Int 1)) t.
Proof. reflexivity. Qed.

(** X23. Nothing guards a log that is already resolved: after a saved
    resolution with action "Repaired" on a tool with a numeric
    [available], the same request again succeeds again and adds one
    again, two in all. *)
Theorem resolve_twice_applies_twice (body : ActionBody.t) (w w1 : world)
    (li ti : nat) (l : Log.t) (t : Tool.t float) (a : Z)
    (o1 : outcome float (Response.t float)) :
  find_log (ActionBody.logId body) (stored dirname w) = Some (li, l) ->
  find_tool (Log.toolId l) (stored dirname w) = Some (ti, t) ->
  ActionBody.action body = JStr "Repaired" ->
  Tool.available t = Int a ->
  save_ok w = true ->
  post_admin_logs_action dirname body w = (o1, w1) ->
  save_ok w1 = true ->
  exists w2 t2,
    post_admin_logs_action dirname body w1
      = (Sent (resolved (ActionBody.logId body)), w2)
    /\ Document.tools (stored dirname w2) !! ti = Some t2
    /\ Tool.available t2 = Int (a + 2)
    /\ Tool.quantity t2 = Tool.quantity t
    /\ Tool.rented t2 = Tool.rented t.
Proof.
  intros Hlog Hfind Hact Ha Hs Hrun Hs1.
  destruct (post_admin_logs_action_run body w li l Hlog) as (w' & H).
  rewrite Hfind in H. destruct H as (E & Hst). rewrite E in Hrun.
  injection Hrun as _ <-. rewrite Hs in Hst.
  set (t1 := apply_action (ActionBody.action body) t) in *.
  assert (find_log (ActionBody.logId body) (stored dirname w')
          = Some (li, set_action RESOLVED l)) as Hlog1.
  { rewrite Hst. unfold find_log. cbn.
    apply (list_find_insert_same _ _ _ _ l); [exact Hlog|].
    cbn. unfold find_log in Hlog.
    by apply list_find_Some in Hlog as (_ & HP & _). }
  assert (Tool.id t1 = Tool.id t) as Hid
    by (unfold t1; rewrite Hact; reflexivity).
  assert (find_tool (Log.toolId (set_action RESOLVED l)) (stored dirname w')
          = Some (ti, t1)) as Hfind1.
  { rewrite Hst. unfold find_tool. cbn.
    by apply (find_tool_insert _ _ _ t). }
  destruct (post_admin_logs_action_run body w' li _ Hlog1) as (w2 & H).
  rewrite Hfind1 in H. destruct H as (E2 & Hst2). rewrite Hs1 in Hst2.
  exists w2, (apply_action (ActionBody.action body) t1).
  split; [exact E2|]. rewrite Hst2, Hst. cbn. split.
  - apply list_lookup_insert_eq. rewrite length_insert.
    apply find_tool_lookup in Hfind. by eapply lookup_lt_Some.
  - unfold t1. rewrite Hact, !apply_action_repaired.
    cbn. rewrite Ha. cbn. split; [|by split]. f_equal. lia.
Qed.

(** X24. A log identifier that does not read as a number matches no
    entry: the audit route answers 400 "Log not found." and changes
    nothing. *)
Theorem audit_log_id_not_a_number (body : ActionBody.t) (w : world) :
  parseInt (ActionBody.logId body) = NaN ->
  post_admin_logs_action dirname body w = (Sent LogNotFound, w).
Proof.
  intros Hnan. unfold post_admin_logs_action.
  rewrite (bind_run _ _ _ _ _ (readDB_run w)), Hnan.
  replace (list_find _ _) with (@None (nat * Log.t)); [reflexivity|].
  symmetry. apply list_find_None, Forall_forall. intros l _.
  by destruct (Log.id l).
Qed.

(** ** Logging in as admin *)

(** X25. The admin branch of the login route never writes, and grants
    access exactly when the email and the password of the request are
    those of the admin record.  On the document [readDB] falls back to
    when the file is missing or not a complete document, whose admin
    record is empty, that is the request that carries neither an email
    nor a password: it is let in, and every request with an email is
    refused. *)
Theorem admin_login (email password : jsval) (w : world) :
  exists reply,
    post_login_admin dirname email password w = (Ret reply, w)
    /\ (reply = LoggedIn "admin" "admin" \/
        reply = LoginRefused "Invalid admin credentials.")
    /\ (reply = LoggedIn "admin" "admin" <->
        admin_field Admin.email (stored dirname w) = email
        /\ admin_field Admin.password (stored dirname w) = password)
    /\ ((forall d, World.files w !! DB_PATH dirname ≠ Some (Json d)) ->
        (reply = LoggedIn "admin" "admin" <->
         email = JUndefined /\ password = JUndefined)).
Proof.
  unfold post_login_admin.
  rewrite (bind_run _ _ _ _ _ (readDB_run w)). unfold js_eq.
  assert ((forall d, World.files w !! DB_PATH dirname ≠ Some (Json d)) ->
          stored dirname w = emptyDB) as Hfall.
  { intros H. unfold stored.
    destruct (World.files w !! DB_PATH dirname) as [[d| |]|]; try done.
    by destruct (H d). }
  destruct (bool_decide (admin_field Admin.email (stored dirname w) = email))
    eqn:E1;
    [destruct (bool_decide
                 (admin_field Admin.password (stored dirname w) = password))
       eqn:E2|]; cbn;
    eexists; (split; [reflexivity|]).
  - apply bool_decide_eq_true in E1, E2.
    split; [by left|]. split; [by split|].
    intros H. rewrite (Hfall H) in E1, E2. cbn in E1, E2. by split.
  - apply bool_decide_eq_true in E1. apply bool_decide_eq_false in E2.
    split; [by right|]. split; [split; [discriminate | by intros [_ ?]]|].
    intros H. rewrite (Hfall H) in E2. cbn in E2.
    split; [discriminate | by intros [_ ?]].
  - apply bool_decide_eq_false in E1.
    split; [by right|]. split; [split; [discriminate | by intros [? _]]|].
    intros H. rewrite (Hfall H) in E1. cbn in E1.
    split; [discriminate | by intros [? _]].
Qed.

(** ** What the routes do not check *)

(** X26. The return route never looks at the tool or the user of the
    rental it closes.  When the request names one tool and the rental
    belongs to another, the request still succeeds: the tool of the
    request is taken back, the tool of the rental keeps its counts, and
    the log entry pairs the user id of the request with the user name of
    the rental. *)
Theorem return_credits_requested_tool (body : ReturnBody.t) (up : Upload.t)
    (w w2 : world) (ti ri tj : nat) (t tr : Tool.t float)
    (r : Rental.t float) (c : Comparison.t) :
  find_tool (ReturnBody.toolId body) (stored dirname w) = Some (ti, t) ->
  AIResult.allow_upload
    (ai_result (Upload.originalname up) (Upload.size up)
       (World.random w 0%nat) (World.random w 1%nat)
       (World.random w 2%nat) (World.random w 3%nat)) = true ->
  image_comparison stringify_length dirname t up (skip_random 4 w)
    = (Ret c, w2) ->
  find_rental (ReturnBody.rentalId body) (stored dirname w) = Some (ri, r) ->
  find_tool (Rental.toolId r) (stored dirname w) = Some (tj, tr) ->
  tj ≠ ti ->
  save_ok w = true ->
  exists w' resp l,
    post_return_check stringify_length dirname body (Some up) w
      = (Sent resp, w')
    /\ Response.success resp = true
    /\ Document.tools (stored dirname w') !! ti = Some (take_back t)
    /\ Document.tools (stored dirname w') !! tj = Some tr
    /\ (Document.logs (stored dirname w')
        = (Document.logs (stored dirname w) ++ [l])%list)
    /\ Log.userId l = parseInt (ReturnBody.userId body)
    /\ Log.userName l = Rental.userName r
    /\ Log.toolId l = ReturnBody.toolId body.
Proof.
  intros Hfind Hallow Hcmp Hrental Hown Hne Hs.
  destruct (post_return_check_commit body up w w2 ti ri t r c
              Hfind Hallow Hcmp Hrental) as (w' & score & Hrun & Hst & _).
  rewrite Hs in Hst. exists w'. eexists _, _.
  split; [exact Hrun|]. split; [reflexivity|]. rewrite Hst. cbn.
  apply find_tool_lookup in Hfind, Hown.
  split; [apply list_lookup_insert_eq; by eapply lookup_lt_Some|].
  split; [by rewrite list_lookup_insert_ne|].
  by repeat split.
Qed.

(** X27. For a tool whose [available] is a number, a rent request
    succeeds exactly when [available] is positive; a zero or negative
    count is turned down like an unknown tool. *)
Theorem rent_succeeds_iff (body : RentBody.t) (w w' : world) (i : nat)
    (t : Tool.t float) (a : Z) (o : outcome float (Response.t float)) :
  find_tool (RentBody.toolId body) (stored dirname w) = Some (i, t) ->
  Tool.available t = Int a ->
  post_rent parseFloat dirname body w = (o, w') ->
  exists resp,
    o = Sent resp
    /\ (Response.success resp = true <-> 0 < a)
    /\ (a <= 0 -> resp = ToolUnavailable /\ w' = w).
Proof.
  intros Hfind Ha Hrun.
  destruct (Z_lt_le_dec 0 a) as [Hpos|Hle].
  - assert (num_leb (Tool.available t) (Int 0) = false) as Hav
      by (rewrite Ha; cbn; apply Z.leb_gt; lia).
    destruct (post_rent_run body w i t Hfind Hav) as (w1 & E & _).
    rewrite E in Hrun. injection Hrun as <- <-.
    eexists. split; [reflexivity|]. split; [by split | lia].
  - rewrite post_rent_refused in Hrun
      by (rewrite Hfind, Ha; cbn; by apply Z.leb_le).
    injection Hrun as <- <-. eexists. split; [reflexivity|].
    split; [split; [discriminate | lia] | by split].
Qed.

Lemma rentalIds_insert (rs : list (Rental.t float)) (ri : nat)
    (r r' : Rental.t float) :
  rs !! ri = Some r -> Rental.rentalId r' = Rental.rentalId r ->
  Rental.rentalId <$> <[ri := r']> rs = Rental.rentalId <$> rs.
Proof.
  intros Hr Hid. rewrite list_fmap_insert, Hid.
  apply list_insert_id. by rewrite list_lookup_fmap, Hr.
Qed.

(** X28. No route removes a rental or changes its identifier: after any
    run of the tools, delete, rent, return and audit routes the
    identifiers of the stored rentals start with those stored before, in
    the same order; only the rent route adds one. *)
Theorem rentals_never_removed (w : world) :
  let ids (x : world) :=
    Rental.rentalId <$> Document.rentals (stored dirname x) in
  (forall body o w',
      post_admin_tools parseFloat dirname body w = (o, w') ->
      ids w' = ids w)
  /\ (forall toolId o w',
        delete_admin_tools dirname toolId w = (o, w') -> ids w' = ids w)
  /\ (forall body o w',
        post_rent parseFloat dirname body w = (o, w') ->
        ids w' = ids w \/ ids w' = (ids w ++ [World.uuids w 0%nat])%list)
  /\ (forall body up o w',
        post_return_check stringify_length dirname body (Some up) w
          = (o, w') ->
        Upload.path up ≠ DB_PATH dirname ->
        ids w' = ids w)
  /\ (forall body o w',
        post_admin_logs_action dirname body w = (o, w') -> ids w' = ids w).
Proof.
  intros ids. unfold ids. repeat split.
  - intros body o w' Hrun.
    destruct (find_tool (ToolBody.id body) (stored dirname w))
      as [[i t0]|] eqn:Hfind.
    { pose proof (post_admin_tools_update body w i t0 Hfind) as H.
      destruct (num_ltb _ _).
      - rewrite H in Hrun. by injection Hrun as <- <-.
      - destruct H as (w1 & E & Hst). rewrite E in Hrun.
        injection Hrun as <- <-. rewrite Hst. by destruct (save_ok w). }
    destruct (ToolBody.name body) as [|name] eqn:Hname.
    { unfold post_admin_tools in Hrun.
      rewrite (bind_run _ _ _ _ _ (readDB_run w)), Hfind, Hname in Hrun.
      by injection Hrun as <- <-. }
    pose proof (post_admin_tools_create body w name Hfind Hname) as H.
    destruct (id_taken _ _).
    + rewrite H in Hrun. by injection Hrun as <- <-.
    + destruct H as (w1 & E & Hst). rewrite E in Hrun.
      injection Hrun as <- <-. rewrite Hst. by destruct (save_ok w).
  - intros toolId o w' Hrun.
    pose proof (delete_admin_tools_run toolId w) as H.
    destruct (id_taken _ _).
    + destruct H as (w1 & E & Hst). rewrite E in Hrun.
      injection Hrun as <- <-. rewrite Hst. by destruct (save_ok w).
    + rewrite H in Hrun. by injection Hrun as <- <-.
  - intros body o w' Hrun.
    destruct (find_tool (RentBody.toolId body) (stored dirname w))
      as [[i t]|] eqn:Hfind.
    2: { rewrite post_rent_refused in Hrun by (by rewrite Hfind).
         injection Hrun as <- <-. by left. }
    destruct (num_leb (Tool.available t) (Int 0)) eqn:Hav.
    { rewrite post_rent_refused in Hrun by (by rewrite Hfind).
      injection Hrun as <- <-. by left. }
    destruct (post_rent_run body w i t Hfind Hav) as (w1 & E & Hst).
    rewrite E in Hrun. injection Hrun as <- <-. rewrite Hst.
    destruct (save_ok w); [right | by left].
    cbn. by rewrite fmap_app.
  - intros body up o w' Hrun Hp.
    destruct (post_return_check_stored body up w w' o Hp Hrun)
      as [-> | (ti & t & ri & r & rd & l & Hfind & Hrental & ->)];
      [reflexivity|].
    cbn. apply (rentalIds_insert _ _ r); [|reflexivity].
    by eapply find_rental_lookup.
  - intros body o w' Hrun.
    destruct (find_log (ActionBody.logId body) (stored dirname w))
      as [[li l]|] eqn:Hlog.
    + destruct (post_admin_logs_action_run body w li l Hlog) as (w1 & H).
      destruct (find_tool _ _) as [[ti t]|]; destruct H as (E & Hst);
        rewrite E in Hrun; injection Hrun as <- <-; rewrite Hst;
        by destruct (save_ok w).
    + unfold post_admin_logs_action in Hrun.
      rewrite (bind_run _ _ _ _ _ (readDB_run w)) in Hrun.
      unfold find_log in Hlog. rewrite Hlog in Hrun.
      by injection Hrun as <- <-.
Qed.

End Properties.

(** * The handlers on the concrete shop *)

(** ** Renting *)

Lemma rent_out_of_stock_witness :
  let w := Demo.world (Demo.shop (Demo.drill 2 2 0 JUndefined) [] []) 0
             NoFault in
  Demo.rent Demo.rentBody w = (Sent ToolUnavailable, w).
Proof.
  intros w.
  refine (proj1 (rent_out_of_stock Demo.parseFloat_whole Demo.dirname
                   Demo.rentBody w 0%nat (Demo.drill 2 2 0 JUndefined) _ _)).
  - vm_compute. reflexivity.
  - reflexivity.
Defined.

Lemma rent_unknown_tool_witness :
  let w := Demo.world (Demo.shop (Demo.drill 2 0 2 JUndefined) [] []) 0
             NoFault in
  let body := RentBody.mk (JStr "saw") (JStr "7") (JStr "Ada")
                (JStr "ada@example.org") (JStr "3") (JStr "30") in
  Demo.rent body w = (Sent ToolUnavailable, w).
Proof.
  intros w body.
  refine (proj1 (rent_unknown_tool Demo.parseFloat_whole Demo.dirname
                   body w _)).
  vm_compute. reflexivity.
Defined.

Lemma rent_keeps_client_figures_witness :
  let w := Demo.world (Demo.shop (Demo.drill 2 0 2 JUndefined) [] []) 0
             NoFault in
  exists rental,
    Response.body (rented_out (newRental Demo.parseFloat_whole Demo.rentBody
                                 "r-2" "2024-01-04T09:00:00.000Z"))
      = RentalPayload rental
    /\ Rental.totalPrice rental = Int 30
    /\ Rental.rentDays rental = Int 3.
Proof.
  intros w.
  destruct (rent_keeps_client_figures Demo.parseFloat_whole Demo.dirname
              Demo.rentBody w (snd (Demo.rent Demo.rentBody w))
              (rented_out (newRental Demo.parseFloat_whole Demo.rentBody
                             "r-2" "2024-01-04T09:00:00.000Z")))
    as (rental & Hb & Hp & Hd & _).
  - vm_compute. reflexivity.
  - reflexivity.
  - exists rental. split; [exact Hb|]. split; [exact Hp | exact Hd].
Defined.
(** Scenario A of the specification: two drills, three rent requests. *)
Lemma rent_twice_then_refused :
  let w0 := Demo.world (Demo.shop (Demo.drill 2 0 2 JUndefined) [] []) 0
              NoFault in
  let r1 := Demo.rent Demo.rentBody w0 in
  let r2 := Demo.rent Demo.rentBody (snd r1) in
  let r3 := Demo.rent Demo.rentBody (snd r2) in
  Document.tools (Demo.at_rest (snd r2)) = [Demo.drill 2 2 0 JUndefined]
  /\ fst r3 = Sent ToolUnavailable
  /\ Demo.at_rest (snd r3) = Demo.at_rest (snd r2).
Proof. repeat split; vm_compute; reflexivity. Qed.

(** ** Returning *)



Lemma return_reply_ignores_save_witness :
  let w := Demo.world (Demo.rentedShop JUndefined) 0 RenameFails in
  exists w',
    Demo.give_back w = (Sent (returned 0), w')
    /\ Demo.at_rest w' = Demo.at_rest w.
Proof.
  intros w.
  destruct (return_reply_ignores_save Demo.stringify_length Demo.dirname
              Demo.returnBody Demo.upload w (skip_random 4 w) 0%nat 0%nat
              (Demo.drill 2 1 1 JUndefined) (Demo.rental1 RENTED)
              (Comparison.mk false 0 None))
    as (w' & Hrun & _ & _ & _ & Hfail);
    try (vm_compute; reflexivity).
  exists w'. split; [exact Hrun|]. apply Hfail. reflexivity.
Defined.

(** A save that fails ([writeDB] returns [false]) under a return request
    that is answered with success. *)
Lemma failed_save_reported_as_success :
  let w := Demo.world (Demo.rentedShop JUndefined) 0 RenameFails in
  let run := Demo.give_back w in
  fst (writeDB Demo.dirname (Demo.rentedShop JUndefined) w) = Ret false
  /\ fst run = Sent (returned 0)
  /\ Response.success (@returned num 0) = true
  /\ Response.code (@returned num 0) = 200
  /\ Demo.at_rest (snd run) = Demo.at_rest w
  /\ World.dbChangeCount (snd run) = 0%nat.
Proof. repeat split; vm_compute; reflexivity. Qed.



(** ** Counts *)



(** Scenario E of the specification: "Remove" on the last unit. *)
Lemma remove_last_unit :
  let db := Demo.shop (Demo.drill 1 0 1 JUndefined) [Demo.rental1 RETURNED]
              [Demo.log1] in
  let run :=
    Demo.resolve (ActionBody.mk (JStr "1") (JStr "Remove"))
      (Demo.world db 0 NoFault) in
  fst run = Sent (resolved (JStr "1"))
  /\ Document.tools (Demo.at_rest (snd run)) = [Demo.drill 0 0 0 JUndefined]
  /\ Log.action <$> Document.logs (Demo.at_rest (snd run)) = [RESOLVED].
Proof. repeat split; vm_compute; reflexivity. Qed.

(** ** Saving *)

Lemma writeDB_crash_safe_witness :
  let w := Demo.world Demo.returnedShop 0 NoFault in
  let data := Demo.rentedShop JUndefined in
  let cut := <[tempPath Demo.dirname := Partial data 40]> (World.files w) in
  crash (writeDB_ops Demo.dirname data) (World.files w) cut
  /\ cut !! DB_PATH Demo.dirname = Some (Json Demo.returnedShop).
Proof.
  intros w data cut.
  assert (crash (writeDB_ops Demo.dirname data) (World.files w) cut) as Hc
    by apply crash_during, during_write.
  split; [exact Hc|].
  destruct (writeDB_crash_safe Demo.dirname data w) as (_ & _ & _ & _ & H).
  destruct (H cut Hc) as [E|E]; rewrite E.
  - vm_compute. reflexivity.
  - exfalso. vm_compute in E. discriminate.
Defined.

(** ** Creating a tool *)



(** ** The authenticity scorer *)


(** ** Library functions on examples *)

Example parseInt_12 : parseInt (JStr " 12px") = Int 12.
Proof. reflexivity. Qed.

Example parseInt_hex : parseInt (JStr "-0x1F") = Int (-31).
Proof. reflexivity. Qed.

Example parseInt_none : parseInt (JStr "abc") = NaN.
Proof. reflexivity. Qed.

Example extname_png : extname "photo.final.PNG" = ".PNG".
Proof. reflexivity. Qed.

Example extname_hidden : extname ".bashrc" = "".
Proof. reflexivity. Qed.

Example includes_mid : includes "my_generated_pic.jpg" "generated" = true.
Proof. reflexivity. Qed.

Example newToolId_Drill : newToolId "Drill" = "drill".
Proof. reflexivity. Qed.

(** * The further properties on the concrete shop *)


Lemma writeDB_failure_keeps_store_witness :
  let w := Demo.world Demo.returnedShop 0 (WriteFails 12) in
  exists w',
    writeDB Demo.dirname (Demo.rentedShop JUndefined) w = (Ret false, w')
    /\ readDB Demo.dirname w' = (Ret Demo.returnedShop, w')
    /\ is_Some (World.files w' !! tempPath Demo.dirname).
Proof.
  intros w.
  destruct (writeDB_failure_keeps_store Demo.dirname
              (Demo.rentedShop JUndefined) w)
    as (w' & E & R & _ & _ & T); [reflexivity|].
  exists w'. split; [exact E|]. split; [exact R|]. apply T. discriminate.
Defined.


Lemma checkDBFile_creates_witness :
  let w := Demo.bare_world None NoFault in
  exists w',
    checkDBFile Demo.dirname w = (Ret true, w')
    /\ readDB Demo.dirname w' = (Ret initialDB, w').
Proof.
  intros w.
  destruct (checkDBFile_creates Demo.dirname w) as (b & w' & E & _ & H);
    [vm_compute; reflexivity|].
  cbn in H. destruct H as [-> R]. by exists w'.
Defined.

Lemma detectAIImage_ranges_witness :
  let res := ai_result "ai_render.png" 1000 (9 # 10) (9 # 10) (1 # 10)
               (5 # 10) in
  0 <= AIResult.confidence res <= 98
  /\ AIResult.damage_detected res = true
  /\ 70 <= AIResult.damage_confidence res <= 99.
Proof.
  intros res.
  destruct (detectAIImage_ranges "ai_render.png" 1000 (9 # 10) (9 # 10)
              (1 # 10) (5 # 10)) as [Hc Hd];
    try (split; vm_compute; congruence).
  split; [exact Hc|]. split; [reflexivity | exact Hd].
Defined.

Lemma plain_photo_always_allowed_witness :
  let res := ai_result "drill_after.jpg" 120000 (99 # 100) (99 # 100) 0 0 in
  AIResult.is_ai_generated res = false
  /\ AIResult.allow_upload res = true
  /\ AIResult.confidence res <= 60.
Proof.
  intros res.
  apply (plain_photo_always_allowed "drill_after.jpg" 120000).
  - lia.
  - repeat constructor.
  - vm_compute. discriminate.
  - vm_compute. discriminate.
  - vm_compute. reflexivity.
  - vm_compute. reflexivity.
Defined.

Lemma compare_sizes_range_witness :
  let c := compare_sizes 100000 120000 (95 # 100) in
  24 <= Comparison.score c <= 84
  /\ Comparison.similar c = true
  /\ 60 <= Comparison.score c.
Proof.
  intros c.
  destruct (compare_sizes_range 100000 120000 (95 # 100)) as (Hr & Hs & _);
    try lia; [split; vm_compute; congruence|].
  split; [exact Hr|]. split; [reflexivity|]. apply Hs. reflexivity.
Defined.


Lemma create_then_get_witness :
  let w := Demo.world emptyDB 0 NoFault in
  let w' := snd (Demo.admin_tools (Demo.toolBody "Drill" "2") w) in
  get_tool Demo.dirname "drill" w' = (Ret (Demo.drill 2 0 2 JUndefined), w').
Proof.
  intros w w'.
  refine (proj1 (create_then_get Demo.parseFloat_whole Demo.dirname
                   (Demo.toolBody "Drill" "2") w w' "Drill"
                   (Demo.drill 2 0 2 JUndefined) _ _ _));
    vm_compute; reflexivity.
Defined.

Lemma create_again_is_duplicate_witness :
  let w := Demo.world emptyDB 0 NoFault in
  let w' := snd (Demo.admin_tools (Demo.toolBody "Power Drill" "2") w) in
  Demo.admin_tools (Demo.toolBody "POWER-drill" "5") w'
  = (Sent DuplicateTool, w').
Proof.
  intros w w'.
  refine (proj1 (create_again_is_duplicate Demo.parseFloat_whole Demo.dirname
                   (Demo.toolBody "Power Drill" "2")
                   (Demo.toolBody "POWER-drill" "5") w w'
                   "Power Drill" "POWER-drill"
                   (newTool Demo.parseFloat_whole
                      (Demo.toolBody "Power Drill" "2") "Power Drill")
                   _ _ _ _ _ _));
    vm_compute; reflexivity.
Defined.

Lemma post_admin_tools_throws_witness :
  let w := Demo.world Demo.returnedShop 0 NoFault in
  let body := ToolBody.mk JUndefined JUndefined (JStr "10") (JStr "2")
                JUndefined JUndefined None in
  Demo.admin_tools body w = (Thrown "TypeError", w)
  /\ ToolBody.name body = JUndefined.
Proof.
  intros w body.
  pose proof (post_admin_tools_throws Demo.parseFloat_whole Demo.dirname
                body w w (Thrown "TypeError")) as H.
  cbv beta iota in H. destruct H as (_ & Hname & _);
    [vm_compute; reflexivity|].
  split; [vm_compute; reflexivity | exact Hname].
Defined.

Lemma update_tool_effect_witness :
  let w := Demo.world (Demo.rentedShop (JStr "drill.png")) 0 NoFault in
  let run := Demo.admin_tools (Demo.updateBody "5") w in
  exists t',
    fst run = Sent (toolUpdated t')
    /\ Tool.available t' = Int 4
    /\ Tool.beforeImage t' = JUndefined.
Proof.
  intros w run.
  pose proof (update_tool_effect Demo.parseFloat_whole Demo.dirname
                (Demo.updateBody "5") w (snd run) 0%nat
                (Demo.drill 2 1 1 (JStr "drill.png")) (fst run)) as H.
  destruct H as (t' & Ho & _ & _ & Hq & Ha & Hb & _);
    try (vm_compute; reflexivity).
  exists t'. split; [exact Ho|]. split; [|exact Hb].
  rewrite Ha, Hq. reflexivity.
Defined.

Lemma delete_tool_effect_witness :
  let w := Demo.world Demo.twoToolShop 0 NoFault in
  let run := Demo.remove "drill" w in
  fst run = Sent ToolDeleted
  /\ Document.tools (Demo.at_rest (snd run)) = [Demo.saw]
  /\ Document.rentals (Demo.at_rest (snd run)) = [Demo.rental1 RENTED].
Proof.
  intros w run.
  pose proof (delete_tool_effect Demo.dirname "drill" w (snd run) (fst run))
    as H.
  destruct H as (Ho & H); [apply surjective_pairing|].
  destruct H as (_ & Hr & _); [reflexivity|].
  split; [exact Ho|]. split; [vm_compute; reflexivity | exact Hr].
Defined.

Lemma after_delete_witness :
  let w := Demo.world Demo.twoToolShop 0 NoFault in
  let w' := snd (Demo.remove "drill" w) in
  Demo.rent Demo.rentBody w' = (Sent ToolUnavailable, w')
  /\ exists views,
      get_user_rentals Demo.dirname "7" w' = (Ret views, w')
      /\ RentalView.toolName <$> views = [JStr "Unknown Tool"].
Proof.
  intros w w'.
  destruct (after_delete Demo.parseFloat_whole Demo.dirname "drill" w w')
    as (Hrent & _ & Hviews); try (vm_compute; reflexivity).
  split; [by apply Hrent|].
  destruct (Hviews "7") as (views & Hrun & _). exists views.
  split; [exact Hrun|].
  assert (Hc : get_user_rentals Demo.dirname "7" w'
               = (Ret [RentalView.mk (Demo.rental1 RENTED)
                         (JStr "Unknown Tool") ""], w'))
    by (vm_compute; reflexivity).
  rewrite Hc in Hrun. by injection Hrun as <-.
Defined.

Lemma user_rentals_of_non_number_witness :
  let w := Demo.world Demo.twoToolShop 0 NoFault in
  get_user_rentals Demo.dirname "seven" w = (Ret [], w).
Proof.
  intros w.
  apply (user_rentals_of_non_number Demo.dirname "seven" w). reflexivity.
Defined.

Lemma rent_effect_witness :
  let w := Demo.world Demo.twoToolShop 0 NoFault in
  exists w' t',
    Document.tools (Demo.at_rest w') = [t'; Demo.saw]
    /\ Tool.available t' = Int 0
    /\ Tool.rented t' = Int 2.
Proof.
  intros w.
  destruct (rent_effect Demo.parseFloat_whole Demo.dirname Demo.rentBody w
              0%nat (Demo.drill 2 1 1 JUndefined) 1 1)
    as (w' & t' & rental & _ & Ht & Ha & Hr & _);
    try (vm_compute; reflexivity).
  exists w', t'. split; [exact Ht|]. split; [exact Ha | exact Hr].
Defined.

Lemma return_effect_witness :
  let w := Demo.world (Demo.rentedShop JUndefined) 0 NoFault in
  exists w' r' l,
    Document.rentals (Demo.at_rest w') = [r']
    /\ Rental.status r' = RETURNED
    /\ Document.logs (Demo.at_rest w') = [l]
    /\ Log.id l = Int 1
    /\ Log.action l = AUTO_RESOLVED
    /\ World.files w' !! Demo.afterPath = Some (Blob 120000).
Proof.
  intros w.
  destruct (return_effect Demo.stringify_length Demo.dirname
              Demo.returnBody Demo.upload w (skip_random 4 w) 0%nat 0%nat
              (Demo.drill 2 1 1 JUndefined) (Demo.rental1 RENTED)
              (Comparison.mk false 0 None))
    as (w' & resp & r' & l & _ & _ & Hr & Hs & _ & _ & _ & _ & Hl & Hid
        & Ha & _ & _ & Hf);
    try (vm_compute; reflexivity); try (vm_compute; discriminate).
  exists w', r', l. split; [exact Hr|]. split; [exact Hs|].
  split; [exact Hl|]. split; [exact Hid|]. split; [exact Ha|].
  etransitivity; [exact Hf|]. vm_compute. reflexivity.
Defined.


Lemma return_rejections_witness :
  let w := Demo.world (Demo.rentedShop JUndefined) 0 NoFault in
  let body := ReturnBody.mk (JStr "saw") (JStr "r-1") (JStr "7") in
  post_return_check Demo.stringify_length Demo.dirname body
    (Some Demo.upload) w = (Sent ToolNotFound, w)
  /\ World.files w !! Demo.afterPath = Some (Blob 120000).
Proof.
  intros w body.
  destruct (return_rejections Demo.stringify_length Demo.dirname body
              Demo.upload w (Blob 120000)) as (H & _);
    [vm_compute; reflexivity | vm_compute; discriminate |].
  split; [apply H; vm_compute; reflexivity | vm_compute; reflexivity].
Defined.

Lemma return_keeps_log_ids_witness :
  let w := Demo.world
             (Demo.shop (Demo.drill 2 1 1 JUndefined) [Demo.rental1 RENTED]
                [Demo.log1]) 0 NoFault in
  exists w',
    NoDup (Log.id <$> Document.logs (Demo.at_rest w'))
    /\ newLogId [Demo.log1] = Int 2.
Proof.
  intros w.
  destruct (return_keeps_log_ids Demo.stringify_length Demo.dirname
              Demo.returnBody Demo.upload w (skip_random 4 w) 0%nat 0%nat
              (Demo.drill 2 1 1 JUndefined) (Demo.rental1 RENTED)
              (Comparison.mk false 0 None))
    as (w' & resp & m & _ & _ & _ & Hnd & _);
    try (vm_compute; reflexivity).
  - apply NoDup_singleton.
  - repeat constructor. discriminate.
  - exists w'. split; [exact Hnd | reflexivity].
Defined.

Lemma rent_then_return_restores_witness :
  let w := Demo.world
             (Demo.shop (Demo.drill 2 0 2 JUndefined) [Demo.rental1 RETURNED]
                []) 0 NoFault in
  let w1 := snd (Demo.rent Demo.rentBody w) in
  exists w3,
    Document.tools (Demo.at_rest w1) = [Demo.drill 2 1 1 JUndefined]
    /\ Demo.give_back w1 = (Sent (returned 0), w3)
    /\ Document.tools (Demo.at_rest w3) = [Demo.drill 2 0 2 JUndefined].
Proof.
  intros w w1.
  destruct (rent_then_return_restores Demo.parseFloat_whole
              Demo.stringify_length Demo.dirname Demo.rentBody
              Demo.returnBody Demo.upload w w1 (skip_random 4 w1)
              0%nat 0%nat (Demo.drill 2 0 2 JUndefined)
              (Demo.rental1 RETURNED)
              (Comparison.mk false 0 None) 2 0
              (fst (Demo.rent Demo.rentBody w)))
    as (w3 & resp & Hrun & _ & Ht);
    try (vm_compute; reflexivity); try lia.
  exists w3. split; [vm_compute; reflexivity|]. split; [|exact Ht].
  assert (fst (Demo.give_back w1) = Sent (returned 0)) as Hfst
    by (vm_compute; reflexivity).
  unfold Demo.give_back in *. rewrite Hrun in Hfst |- *.
  cbn in Hfst. by rewrite Hfst.
Defined.

Lemma audit_resolution_effect_witness :
  let db := Document.mk None [] [Demo.saw] [Demo.rental1 RETURNED]
              [Demo.log1] in
  let w := Demo.world db 0 NoFault in
  exists w',
    Demo.resolve (ActionBody.mk (JStr "1") (JStr "Repaired")) w
      = (Sent LogToolNotFound, w')
    /\ Log.action <$> Document.logs (Demo.at_rest w') = [RESOLVED]
    /\ Document.tools (Demo.at_rest w') = [Demo.saw].
Proof.
  intros db w.
  destruct (audit_resolution_effect Demo.dirname
              (ActionBody.mk (JStr "1") (JStr "Repaired")) w 0%nat Demo.log1)
    as (w' & resp & l' & Hrun & Hlogs & Hact & _ & _ & _ & _ & Htool);
    try (vm_compute; reflexivity).
  assert (find_tool (Log.toolId Demo.log1) (Demo.at_rest w) = None) as Hnone
    by (vm_compute; reflexivity).
  unfold Demo.at_rest in Hnone. rewrite Hnone in Htool.
  destruct Htool as [-> Htools].
  exists w'. split; [exact Hrun|]. unfold Demo.at_rest.
  rewrite Hlogs, Htools. split; [|vm_compute; reflexivity].
  assert (Document.logs (stored Demo.dirname w) = [Demo.log1]) as ->
    by (vm_compute; reflexivity).
  cbn. by rewrite Hact.
Defined.

Lemma resolve_twice_applies_twice_witness :
  let w := Demo.world Demo.returnedShop 0 NoFault in
  let body := ActionBody.mk (JStr "1") (JStr "Repaired") in
  let w1 := snd (Demo.resolve body w) in
  exists w2 t2,
    Demo.resolve body w1 = (Sent (resolved (JStr "1")), w2)
    /\ Document.tools (Demo.at_rest w2) !! 0%nat = Some t2
    /\ Tool.available t2 = Int 4
    /\ Tool.quantity t2 = Int 2.
Proof.
  intros w body w1.
  destruct (resolve_twice_applies_twice Demo.dirname body w w1 0%nat 0%nat
              Demo.log1 (Demo.drill 2 0 2 JUndefined) 2
              (fst (Demo.resolve body w)))
    as (w2 & t2 & Hrun & Ht & Ha & Hq & _);
    try (vm_compute; reflexivity).
  exists w2, t2. split; [exact Hrun|]. split; [exact Ht|].
  split; [exact Ha | exact Hq].
Defined.

Lemma audit_log_id_not_a_number_witness :
  let w := Demo.world Demo.returnedShop 0 NoFault in
  Demo.resolve (ActionBody.mk JUndefined (JStr "Repaired")) w
  = (Sent LogNotFound, w).
Proof.
  intros w.
  apply (audit_log_id_not_a_number Demo.dirname
           (ActionBody.mk JUndefined (JStr "Repaired")) w).
  reflexivity.
Defined.

Lemma admin_login_witness :
  let w := Demo.bare_world (Some (Partial initialDB 10)) NoFault in
  post_login_admin Demo.dirname JUndefined JUndefined w
  = (Ret (LoggedIn "admin" "admin"), w).
Proof.
  intros w.
  destruct (admin_login Demo.dirname JUndefined JUndefined w)
    as (reply & Hrun & _ & _ & Hfall).
  rewrite Hrun. f_equal. f_equal. apply Hfall; [|by split].
  intros d. vm_compute. discriminate.
Defined.

(** With the default document on disk the same request is refused, and
    the default credentials are let in. *)
Lemma admin_login_initial :
  let w := Demo.bare_world (Some (Json initialDB)) NoFault in
  fst (post_login_admin Demo.dirname JUndefined JUndefined w)
  = Ret (LoginRefused "Invalid admin credentials.")
  /\ fst (post_login_admin Demo.dirname (JStr "admin@rentalhub.com")
            (JStr "admin123") w)
     = Ret (LoggedIn "admin" "admin").
Proof. split; vm_compute; reflexivity. Qed.

Lemma return_credits_requested_tool_witness :
  let w := Demo.world Demo.twoToolShop 0 NoFault in
  exists w',
    post_return_check Demo.stringify_length Demo.dirname Demo.returnBodySaw
      (Some Demo.upload) w = (Sent (returned 0), w')
    /\ Document.tools (Demo.at_rest w')
       = [Demo.drill 2 1 1 JUndefined;
          Tool.mk "saw" (JStr "Saw") JUndefined (Int 15) (Int 1) (Int 0)
            (Int 2) (JStr "New tool added.") defaultSpecs].
Proof.
  intros w.
  destruct (return_credits_requested_tool Demo.stringify_length Demo.dirname
              Demo.returnBodySaw Demo.upload w (skip_random 4 w)
              1%nat 0%nat 0%nat Demo.saw (Demo.drill 2 1 1 JUndefined)
              (Demo.rental1 RENTED) (Comparison.mk false 0 None))
    as (w' & resp & l & Hrun & _); try (vm_compute; reflexivity); [lia|].
  assert (post_return_check Demo.stringify_length Demo.dirname
            Demo.returnBodySaw (Some Demo.upload) w
          = (Sent (returned 0),
             snd (post_return_check Demo.stringify_length Demo.dirname
                    Demo.returnBodySaw (Some Demo.upload) w))) as Hc
    by (vm_compute; reflexivity).
  eexists. split; [exact Hc|]. vm_compute. reflexivity.
Defined.

Lemma rent_succeeds_iff_witness :
  let w := Demo.world
             (Demo.shop (Demo.drill 2 3 (-1) JUndefined) [] []) 0 NoFault in
  Demo.rent Demo.rentBody w = (Sent ToolUnavailable, w).
Proof.
  intros w.
  destruct (rent_succeeds_iff Demo.parseFloat_whole Demo.dirname
              Demo.rentBody w (snd (Demo.rent Demo.rentBody w)) 0%nat
              (Demo.drill 2 3 (-1) JUndefined) (-1)
              (fst (Demo.rent Demo.rentBody w)))
    as (resp & Ho & _ & Hneg);
    [vm_compute; reflexivity | reflexivity | apply surjective_pairing |].
  destruct Hneg as [-> Hw]; [lia|].
  rewrite (surjective_pairing (Demo.rent Demo.rentBody w)), Ho, Hw.
  reflexivity.
Defined.

Lemma rentals_never_removed_witness :
  let w := Demo.world Demo.twoToolShop 0 NoFault in
  Rental.rentalId <$>
    Document.rentals (Demo.at_rest (snd (Demo.remove "drill" w)))
  = ["r-1"].
Proof.
  intros w.
  destruct (rentals_never_removed Demo.parseFloat_whole
              Demo.stringify_length Demo.dirname w) as (_ & Hdel & _).
  etransitivity; [eapply Hdel, surjective_pairing|].
  vm_compute. reflexivity.
Defined.
